(** * git-sync: the configuration model, the authorizer, the sync engine and
      the request handler of [main.go], embedded in Rocq.

    [main.go] carries two revisions of the program.  The current one (the one
    the README documents: [global_tokens], [tokens], header
    [X-GIT-SYNC-TOKEN]) is embedded at top level.  The older one
    ([master_key], [api_keys], header [X-GIT-SYNC-KEY]) is embedded in
    [Module V1] as far as its configuration processing goes. *)

From Stdlib Require Import String Ascii List Bool Arith Lia.
Import ListNotations.

Local Open Scope string_scope.
Local Open Scope list_scope.

(** ** Go values shared by both revisions *)

(** A Go [error] is observed through its message only; [nil] is [None]. *)
Definition error := option string.

(** [fmt.Errorf(prefix + "%v", err)]: the message of the wrapped error is
    appended to the prefix. *)
Definition Errorf (prefix cause : string) : error := Some (prefix ++ cause)%string.

(** [slices.Contains(s, v)]. *)
Fixpoint slices_Contains (s : list string) (v : string) : bool :=
  match s with
  | [] => false
  | x :: rest => if String.eqb x v then true else slices_Contains rest v
  end.

(** [append(s, v)] on the value a slice denotes; [Module Slice] below has the
    slice headers and backing arrays underneath, and [Slice_append_value]
    relates the two. *)
Definition append (s : list string) (v : string) : list string := s ++ [v].

(** ** Slice headers and backing arrays *)

Module Slice.

(** A slice header: the backing array it points into, its length and its
    capacity. *)
Record header := mkHeader {
  array : nat;
  len : nat;
  cap : nat
}.

(** The backing arrays allocated so far. *)
Definition heap := list (list string).

Definition cells (h : heap) (s : header) : list string := nth (array s) h [].

(** The value a slice denotes: the first [len] cells of its array. *)
Definition view (h : heap) (s : header) : list string := firstn (len s) (cells h s).

Fixpoint store {A : Type} (i : nat) (v : A) (l : list A) : list A :=
  match l, i with
  | [], _ => []
  | _ :: rest, O => v :: rest
  | x :: rest, S j => x :: store j v rest
  end.

(** [append(s, v)]: with spare capacity the cell behind the last one is
    written in place and the header returned is one longer; without, the
    cells are copied to a fresh array whose capacity [grow] chooses. *)
Definition goAppend (grow : nat -> nat) (h : heap) (s : header) (v : string) : heap * header :=
  if Nat.ltb (len s) (cap s)
  then (store (array s) (store (len s) v (cells h s)) h,
        mkHeader (array s) (S (len s)) (cap s))
  else (h ++ [view h s ++ v :: repeat EmptyString (grow (cap s) - S (len s))],
        mkHeader (List.length h) (S (len s)) (grow (cap s))).

(** [for _, t := range ts { stored = append(r, t) }]: every round appends to
    the same header [r] and overwrites the header stored the round before. *)
Fixpoint appendEach (grow : nat -> nat) (h : heap) (r stored : header) (ts : list string)
  : heap * header :=
  match ts with
  | [] => (h, stored)
  | t :: rest =>
      let (h', stored') := goAppend grow h r t in
      appendEach grow h' r stored' rest
  end.

(** A header that points into the heap, within the capacity of its array. *)
Definition wellFormed (h : heap) (s : header) : Prop :=
  array s < List.length h /\ len s <= cap s /\ List.length (cells h s) = cap s.

End Slice.

(** ** The older revision: master key and API keys *)

Module V1.

Record repositoryConfig := mkRepositoryConfig {
  Name : string;
  Local : string;
  Remote : string;
  Branch : string;
  ApiKeys : list string
}.

Record serverConfig := mkServerConfig {
  Address : string;
  Port : string;
  MasterKey : string;
  Repositories : list repositoryConfig;
  LogDirectory : string
}.

Definition set_Address (a : string) (c : serverConfig) : serverConfig :=
  mkServerConfig a (Port c) (MasterKey c) (Repositories c) (LogDirectory c).

Definition set_Port (p : string) (c : serverConfig) : serverConfig :=
  mkServerConfig (Address c) p (MasterKey c) (Repositories c) (LogDirectory c).

Definition set_Repositories (rs : list repositoryConfig) (c : serverConfig) : serverConfig :=
  mkServerConfig (Address c) (Port c) (MasterKey c) rs (LogDirectory c).

Definition set_Branch (b : string) (r : repositoryConfig) : repositoryConfig :=
  mkRepositoryConfig (Name r) (Local r) (Remote r) b (ApiKeys r).

Definition set_ApiKeys (ks : list string) (r : repositoryConfig) : repositoryConfig :=
  mkRepositoryConfig (Name r) (Local r) (Remote r) (Branch r) ks.

(** [c.Repositories[i].ApiKeys = ks]; the loop never leaves the slice. *)
Fixpoint assign_ApiKeys (i : nat) (ks : list string) (rs : list repositoryConfig)
  : list repositoryConfig :=
  match rs, i with
  | [], _ => []
  | r :: rest, O => set_ApiKeys ks r :: rest
  | r :: rest, S j => r :: assign_ApiKeys j ks rest
  end.

(** The body of [for i, r := range c.Repositories], from index [i] on; [todo]
    holds the elements the loop has still to visit. *)
Fixpoint rangeRepositories (i : nat) (todo : list repositoryConfig) (c : serverConfig)
  : serverConfig * error :=
  match todo with
  | [] => (c, None)
  | r :: rest =>
      if String.eqb (Name r) "" then (c, Some "repository config missing name value")
      else if String.eqb (Local r) "" then (c, Some "repository config missing local value")
      else if String.eqb (Remote r) "" then (c, Some "repository config missing remote value")
      else
        let r := if String.eqb (Branch r) "" then set_Branch "main" r else r in
        let c :=
          if negb (String.eqb (MasterKey c) "")
          then set_Repositories
                 (assign_ApiKeys i (append (ApiKeys r) (MasterKey c)) (Repositories c)) c
          else c in
        rangeRepositories (S i) rest c
  end.

(** [processConfig] mutates [*c]; the configuration it leaves behind is
    returned next to the error. *)
Definition processConfig (c : serverConfig) : serverConfig * error :=
  let c := if String.eqb (Address c) "" then set_Address "" c else c in
  let c := if String.eqb (Port c) "" then set_Port "8654" c else c in
  let c := if String.eqb (LogDirectory c) "" then c else c in
  rangeRepositories 0 (Repositories c) c.

End V1.

(** ** The current revision: global tokens and repository tokens *)

Record repositoryConfig := mkRepositoryConfig {
  Name : string;
  Local : string;
  Remote : string;
  Branch : string;
  Tokens : list string
}.

Record serverConfig := mkServerConfig {
  Address : string;
  Port : string;
  GlobalTokens : list string;
  Repositories : list repositoryConfig
}.

Definition set_Address (a : string) (c : serverConfig) : serverConfig :=
  mkServerConfig a (Port c) (GlobalTokens c) (Repositories c).

Definition set_Port (p : string) (c : serverConfig) : serverConfig :=
  mkServerConfig (Address c) p (GlobalTokens c) (Repositories c).

Definition set_Repositories (rs : list repositoryConfig) (c : serverConfig) : serverConfig :=
  mkServerConfig (Address c) (Port c) (GlobalTokens c) rs.

Definition set_Branch (b : string) (r : repositoryConfig) : repositoryConfig :=
  mkRepositoryConfig (Name r) (Local r) (Remote r) b (Tokens r).

Definition set_Tokens (ts : list string) (r : repositoryConfig) : repositoryConfig :=
  mkRepositoryConfig (Name r) (Local r) (Remote r) (Branch r) ts.

(** [func (rc repositoryConfig) validToken(key string) bool] *)
Definition validToken (rc : repositoryConfig) (key : string) : bool :=
  slices_Contains (Tokens rc) key.

(** [func (sc serverConfig) getRepository(name string)]: a pointer to a copy of
    the first repository of that name, or [nil] and the error. *)
Fixpoint findRepository (rs : list repositoryConfig) (name : string) : option repositoryConfig :=
  match rs with
  | [] => None
  | r :: rest => if String.eqb (Name r) name then Some r else findRepository rest name
  end.

Definition getRepository (sc : serverConfig) (name : string) : option repositoryConfig * error :=
  match findRepository (Repositories sc) name with
  | Some r => (Some r, None)
  | None => (None, Errorf "failed to find configured repository with name: " name)
  end.

(** [func (sc serverConfig) tokenExists(key string) bool] *)
Fixpoint anyRepositoryContains (rs : list repositoryConfig) (key : string) : bool :=
  match rs with
  | [] => false
  | r :: rest => if slices_Contains (Tokens r) key then true else anyRepositoryContains rest key
  end.

Definition tokenExists (sc : serverConfig) (key : string) : bool :=
  anyRepositoryContains (Repositories sc) key.

(** [c.Repositories[i].Tokens = ts]; the loop never leaves the slice. *)
Fixpoint assign_Tokens (i : nat) (ts : list string) (rs : list repositoryConfig)
  : list repositoryConfig :=
  match rs, i with
  | [], _ => []
  | r :: rest, O => set_Tokens ts r :: rest
  | r :: rest, S j => r :: assign_Tokens j ts rest
  end.

(** [for _, t := range c.GlobalTokens { c.Repositories[i].Tokens = append(r.Tokens, t) }]:
    every round appends to the tokens of the loop copy [r], not to what the
    round before stored ([Slice.appendEach] is the same loop on headers). *)
Definition rangeGlobalTokens (i : nat) (r : repositoryConfig) (c : serverConfig) : serverConfig :=
  fold_left
    (fun (c : serverConfig) (t : string) =>
       set_Repositories (assign_Tokens i (append (Tokens r) t) (Repositories c)) c)
    (GlobalTokens c) c.

(** The body of [for i, r := range c.Repositories], from index [i] on; [todo]
    holds the elements the loop has still to visit (round [i] writes element
    [i] only, after [r] was copied from it). *)
Fixpoint rangeRepositories (i : nat) (todo : list repositoryConfig) (c : serverConfig)
  : serverConfig * error :=
  match todo with
  | [] => (c, None)
  | r :: rest =>
      if String.eqb (Name r) "" then (c, Some "repository config missing name value")
      else if String.eqb (Local r) "" then (c, Some "repository config missing local value")
      else if String.eqb (Remote r) "" then (c, Some "repository config missing remote value")
      else
        let r := if String.eqb (Branch r) "" then set_Branch "main" r else r in
        let c := if Nat.ltb 0 (List.length (GlobalTokens c)) then rangeGlobalTokens i r c else c in
        rangeRepositories (S i) rest c
  end.

(** [processConfig] mutates [*c]; the configuration it leaves behind is
    returned next to the error. *)
Definition processConfig (c : serverConfig) : serverConfig * error :=
  let c := if String.eqb (Address c) "" then set_Address "0.0.0.0" c else c in
  let c := if String.eqb (Port c) "" then set_Port "8654" c else c in
  rangeRepositories 0 (Repositories c) c.

(** ** Strings of the HTTP surface *)

(** The line feed that ends every format string of the handler. *)
Definition LF : string := String "010"%char EmptyString.

Definition StatusOK : nat := 200.
Definition StatusBadRequest : nat := 400.
Definition StatusUnauthorized : nat := 401.
Definition StatusNotFound : nat := 404.
Definition StatusMethodNotAllowed : nat := 405.


(** ** net/http as the handler sees it *)

Definition isLower (c : ascii) : bool :=
  Nat.leb 97 (nat_of_ascii c) && Nat.leb (nat_of_ascii c) 122.

Definition isUpper (c : ascii) : bool :=
  Nat.leb 65 (nat_of_ascii c) && Nat.leb (nat_of_ascii c) 90.

Definition toUpper (c : ascii) : ascii :=
  if isLower c then ascii_of_nat (nat_of_ascii c - 32) else c.

Definition toLower (c : ascii) : ascii :=
  if isUpper c then ascii_of_nat (nat_of_ascii c + 32) else c.

(** [textproto.CanonicalMIMEHeaderKey] on a key made of letters, digits and
    hyphens (both keys the handler asks for are): the first letter and every
    letter after a hyphen in upper case, the others in lower case. *)
Fixpoint canonicalFrom (upperNext : bool) (s : string) : string :=
  match s with
  | EmptyString => EmptyString
  | String c rest =>
      String (if upperNext then toUpper c else toLower c)
             (canonicalFrom (Ascii.eqb c "-"%char) rest)
  end.

Definition CanonicalMIMEHeaderKey (s : string) : string := canonicalFrom true s.

(** [http.Header]: canonical key to the values received under it. *)
Definition Header := list (string * list string).

Fixpoint headerValues (h : Header) (key : string) : list string :=
  match h with
  | [] => []
  | (k, vs) :: rest => if String.eqb k key then vs else headerValues rest key
  end.

(** [h.Get(key)]: the first value under the canonical form of [key], and the
    empty string when there is none. *)
Definition Header_Get (h : Header) (key : string) : string :=
  match headerValues h (CanonicalMIMEHeaderKey key) with
  | [] => ""
  | v :: _ => v
  end.

(** [*http.Request], the fields the handler reads. *)
Record Request := mkRequest {
  Method : string;
  Headers : Header;
  Body : string
}.

(** [http.ResponseWriter]: whether the status line is decided, the status and
    the text the handler has written to it so far.  What of that text goes
    out as the body of the response is [sentBody]. *)
Record ResponseWriter := mkResponseWriter {
  wroteHeader : bool;
  status : nat;
  body : string
}.

Definition newResponseWriter : ResponseWriter := mkResponseWriter false 0 "".

(** [type repositoryRequest struct { Name string }] *)
Record repositoryRequest := mkRepositoryRequest { reqName : string }.

(** ** The process boundary and the log *)

(** [*exec.Cmd]: the program, its arguments and the working directory. *)
Record Cmd := mkCmd {
  Path : string;
  Args : list string;
  Dir : string
}.

Definition exec_Command (name : string) (args : list string) : Cmd := mkCmd name args "".

Definition set_Dir (d : string) (cmd : Cmd) : Cmd := mkCmd (Path cmd) (Args cmd) d.

Inductive Level := LevelInfo | LevelWarn.

(** One [slog] record: level, message and the key/value pairs. *)
Record LogRecord := mkLogRecord {
  logLevel : Level;
  logMsg : string;
  logAttrs : list (string * string)
}.

(** ** A state monad for the code that runs commands, logs and answers *)

Definition M (S A : Type) : Type := S -> A * S.

Definition ret {S A : Type} (a : A) : M S A := fun s => (a, s).

Definition bind {S A B : Type} (m : M S A) (k : A -> M S B) : M S B :=
  fun s => let (a, s') := m s in k a s'.

Declare Scope go_scope.
Delimit Scope go_scope with go.
Notation "x <- m ;; k" := (bind m (fun x => k))
  (at level 61, m at next level, right associativity) : go_scope.
Notation "m ;; k" := (bind m (fun _ => k))
  (at level 61, right associativity) : go_scope.

(** ** The sync engine and the request handler *)

Section Server.

Local Open Scope go_scope.

(** Whatever the commands act on: file system, network, the remote. *)
Variable World : Type.

(** [cmd.Run()]: the error (or [nil]) and the world the command leaves. *)
Variable cmd_Run : Cmd -> World -> error * World.

(** [json.NewDecoder(r.Body).Decode(&repReq)]: the request as decoded and the
    error (or [nil]). *)
Variable json_Decode : string -> repositoryRequest * error.

(** What one handler invocation reads and writes: the world behind the
    commands, the commands started so far, the log and the response. *)
Record Machine := mkMachine {
  world : World;
  invocations : list Cmd;
  logged : list LogRecord;
  w : ResponseWriter
}.

Definition Run (cmd : Cmd) : M Machine error :=
  fun s =>
    let (err, world') := cmd_Run cmd (world s) in
    (err, mkMachine world' (invocations s ++ [cmd]) (logged s) (w s)).

Definition slog_emit (l : Level) (msg : string) (attrs : list (string * string))
  : M Machine unit :=
  fun s =>
    (tt, mkMachine (world s) (invocations s) (logged s ++ [mkLogRecord l msg attrs]) (w s)).

Definition slog_Warn := slog_emit LevelWarn.
Definition slog_Info := slog_emit LevelInfo.

(** [w.WriteHeader(code)]: the first call decides the status, later ones are
    ignored. *)
Definition WriteHeader (code : nat) : M Machine unit :=
  fun s =>
    if wroteHeader (w s) then (tt, s)
    else (tt, mkMachine (world s) (invocations s) (logged s)
                        (mkResponseWriter true code (body (w s)))).

(** [fmt.Fprintf(w, ...)] with the formatted text [text]: [w.Write] decides
    the status as 200 when no [WriteHeader] came before and takes the text,
    whatever the method of the request; net/http drops it afterwards when
    the method is HEAD ([sentBody]). *)
Definition Fprintf (text : string) : M Machine unit :=
  WriteHeader StatusOK ;;
  fun s =>
    (tt, mkMachine (world s) (invocations s) (logged s)
                   (mkResponseWriter (wroteHeader (w s)) (status (w s))
                                     (body (w s) ++ text)%string)).

(** What net/http does when the handler returns: a response whose status was
    never decided goes out as 200. *)
Definition finishRequest : M Machine unit := WriteHeader StatusOK.

Definition fetchRepository (r : repositoryConfig) : M Machine error :=
  let cmd := exec_Command "git" ["fetch"; "origin"; Branch r] in
  let cmd := set_Dir (Local r) cmd in
  err <- Run cmd ;;
  match err with
  | Some e => ret (Errorf "failed to fetch origin: " e)
  | None => ret None
  end.

Definition resetRepository (r : repositoryConfig) : M Machine error :=
  let remote := ("origin/" ++ Branch r)%string in
  let cmd := exec_Command "git" ["reset"; "--hard"; remote] in
  let cmd := set_Dir (Local r) cmd in
  err <- Run cmd ;;
  match err with
  | Some e => ret (Errorf "failed to reset origin: " e)
  | None => ret None
  end.

Definition cleanRepository (r : repositoryConfig) : M Machine error :=
  let cmd := exec_Command "git" ["clean"; "-fdx"] in
  let cmd := set_Dir (Local r) cmd in
  err <- Run cmd ;;
  match err with
  | Some e => ret (Errorf "failed to clean untracked files: " e)
  | None => ret None
  end.

Definition syncRepository (r : repositoryConfig) : M Machine error :=
  err <- fetchRepository r ;;
  match err with
  | Some e => ret (Errorf "failed to sync repository: " e)
  | None =>
      err <- resetRepository r ;;
      match err with
      | Some e => ret (Errorf "failed to sync repository: " e)
      | None =>
          err <- cleanRepository r ;;
          match err with
          | Some e => ret (Errorf "failed to clean repository: " e)
          | None => ret None
          end
      end
  end.

Definition source_ip (r : Request) : list (string * string) :=
  [("source_ip", Header_Get (Headers r) "x-forwarded-for")].

(** The function registered for ["/"] in [main], over the processed
    configuration [config]. *)
Definition handler (config : serverConfig) (r : Request) : M Machine unit :=
  let reqToken := Header_Get (Headers r) "X-GIT-SYNC-TOKEN" in
  if String.eqb reqToken "" then
    slog_Warn "token not provided" (source_ip r) ;;
    WriteHeader StatusUnauthorized ;;
    Fprintf ("Unauthorized" ++ LF)
  else if negb (tokenExists config reqToken) then
    slog_Warn "invalid token" (source_ip r) ;;
    WriteHeader StatusUnauthorized ;;
    Fprintf ("Unauthorized" ++ LF)
  else if String.eqb (Method r) "GET" then
    slog_Warn "hit GET" (source_ip r) ;;
    WriteHeader StatusOK ;;
    Fprintf ("OK" ++ LF)
  else if negb (String.eqb (Method r) "POST") then
    slog_Warn "invalid method" (source_ip r) ;;
    WriteHeader StatusMethodNotAllowed ;;
    Fprintf ("GET or POST only" ++ LF)
  else
    let (repReq, err) := json_Decode (Body r) in
    match err with
    | Some e =>
        slog_Warn "failed to unmarshal body" (source_ip r) ;;
        WriteHeader StatusBadRequest ;;
        Fprintf ("Bad Request: Failed to unmarshal json body: " ++ e ++ LF)
    | None =>
        if String.eqb (reqName repReq) "" then
          slog_Warn "repository name not provided" (source_ip r) ;;
          WriteHeader StatusBadRequest ;;
          Fprintf ("Bad Request: Repository name not provided" ++ LF)
        else
          match getRepository config (reqName repReq) with
          | (_, Some e) =>
              slog_Warn "repository not found" (source_ip r) ;;
              WriteHeader StatusNotFound ;;
              Fprintf ("Bad Request: Repository not found: " ++ e ++ LF)
          | (None, None) => ret tt (* never returned, see [getRepository_cases] *)
          | (Some repoConfig, None) =>
              if negb (validToken repoConfig reqToken) then
                slog_Warn "invalid token for repository" (source_ip r) ;;
                WriteHeader StatusUnauthorized ;;
                Fprintf ("Unauthorized" ++ LF)
              else
                slog_Info (Name repoConfig)
                  [("local", Local repoConfig); ("remote", Remote repoConfig);
                   ("branch", Branch repoConfig)] ;;
                _ <- syncRepository repoConfig ;;
                ret tt
          end
    end.

(** One request served: the handler runs on a fresh response, then net/http
    completes the response. *)
Definition serve (config : serverConfig) (r : Request) : M Machine unit :=
  handler config r ;; finishRequest.

(** The machine a request meets: the world as it is, nothing started, nothing
    logged, nothing written. *)
Definition fresh (os : World) : Machine := mkMachine os [] [] newResponseWriter.

(** The response the client receives and the commands the request started. *)
Definition response (config : serverConfig) (r : Request) (os : World) : ResponseWriter :=
  w (snd (serve config r (fresh os))).

Definition started (config : serverConfig) (r : Request) (os : World) : list Cmd :=
  invocations (snd (serve config r (fresh os))).

End Server.

Arguments mkMachine {World} _ _ _ _.
Arguments world {World} _.
Arguments invocations {World} _.
Arguments logged {World} _.
Arguments w {World} _.
Arguments fresh {World} _.
Arguments syncRepository {World} _ _ _.
Arguments fetchRepository {World} _ _ _.
Arguments resetRepository {World} _ _ _.
Arguments cleanRepository {World} _ _ _.
Arguments handler {World} _ _ _ _ _.
Arguments serve {World} _ _ _ _ _.
Arguments response {World} _ _ _ _ _.
Arguments started {World} _ _ _ _ _.

(** The token a request carries, [reqToken] in the handler: the value of its
    [X-GIT-SYNC-TOKEN] header, empty when the header is missing. *)
Definition requestToken (r : Request) : string :=
  Header_Get (Headers r) "X-GIT-SYNC-TOKEN".

(** The body net/http sends with the response [rw] to the request [r]: the
    text the handler wrote, except that the writer behind
    [http.ResponseWriter] eats every write when the method of the request is
    HEAD, so that such a response goes out with its status and no body. *)
Definition sentBody (r : Request) (rw : ResponseWriter) : string :=
  if String.eqb (Method r) "HEAD" then "" else body rw.

(** The three commands of one synchronisation, as the engine builds them. *)
Definition fetchCmd (r : repositoryConfig) : Cmd :=
  mkCmd "git" ["fetch"; "origin"; Branch r] (Local r).

Definition resetCmd (r : repositoryConfig) : Cmd :=
  mkCmd "git" ["reset"; "--hard"; ("origin/" ++ Branch r)%string] (Local r).

Definition cleanCmd (r : repositoryConfig) : Cmd :=
  mkCmd "git" ["clean"; "-fdx"] (Local r).

(** ** The older revision's authorizer, sync engine and handler *)

Module V1Server.

(** [func (rc repositoryConfig) validKey(key string) bool] *)
Definition validKey (rc : V1.repositoryConfig) (key : string) : bool :=
  slices_Contains (V1.ApiKeys rc) key.

Fixpoint findRepository (rs : list V1.repositoryConfig) (name : string)
  : option V1.repositoryConfig :=
  match rs with
  | [] => None
  | r :: rest => if String.eqb (V1.Name r) name then Some r else findRepository rest name
  end.

(** [func (sc serverConfig) getRepository(name string)] *)
Definition getRepository (sc : V1.serverConfig) (name : string)
  : option V1.repositoryConfig * error :=
  match findRepository (V1.Repositories sc) name with
  | Some r => (Some r, None)
  | None => (None, Errorf "failed to find configured repository with name: " name)
  end.

Fixpoint anyRepositoryContains (rs : list V1.repositoryConfig) (key : string) : bool :=
  match rs with
  | [] => false
  | r :: rest =>
      if slices_Contains (V1.ApiKeys r) key then true else anyRepositoryContains rest key
  end.

(** [func (sc serverConfig) keyExists(key string) bool] *)
Definition keyExists (sc : V1.serverConfig) (key : string) : bool :=
  anyRepositoryContains (V1.Repositories sc) key.

Section Server.

Local Open Scope go_scope.

Variable World : Type.
Variable cmd_Run : Cmd -> World -> error * World.
Variable json_Decode : string -> repositoryRequest * error.

(** [func logOperation(r repositoryConfig)] *)
Definition logOperation (r : V1.repositoryConfig) : M (Machine World) unit :=
  slog_Info World (V1.Name r)
    [("local", V1.Local r); ("remote", V1.Remote r); ("branch", V1.Branch r)].

Definition fetchRepository (r : V1.repositoryConfig) : M (Machine World) error :=
  let cmd := exec_Command "git" ["fetch"; "origin"; V1.Branch r] in
  let cmd := set_Dir (V1.Local r) cmd in
  err <- Run World cmd_Run cmd ;;
  match err with
  | Some e => ret (Errorf "failed to fetch origin: " e)
  | None => ret None
  end.

Definition resetRepository (r : V1.repositoryConfig) : M (Machine World) error :=
  let remote := ("origin/" ++ V1.Branch r)%string in
  let cmd := exec_Command "git" ["reset"; "--hard"; remote] in
  let cmd := set_Dir (V1.Local r) cmd in
  err <- Run World cmd_Run cmd ;;
  match err with
  | Some e => ret (Errorf "failed to reset origin: " e)
  | None => ret None
  end.

Definition cleanRepository (r : V1.repositoryConfig) : M (Machine World) error :=
  let cmd := exec_Command "git" ["clean"; "-fdx"] in
  let cmd := set_Dir (V1.Local r) cmd in
  err <- Run World cmd_Run cmd ;;
  match err with
  | Some e => ret (Errorf "failed to clean untracked files: " e)
  | None => ret None
  end.

Definition syncRepository (r : V1.repositoryConfig) : M (Machine World) error :=
  err <- fetchRepository r ;;
  match err with
  | Some e => ret (Errorf "failed to sync repository: " e)
  | None =>
      err <- resetRepository r ;;
      match err with
      | Some e => ret (Errorf "failed to sync repository: " e)
      | None =>
          err <- cleanRepository r ;;
          match err with
          | Some e => ret (Errorf "failed to clean repository: " e)
          | None => ret None
          end
      end
  end.

(** The function the older [main] registers for ["/"]: the key comes in the
    header [X-GIT-SYNC-KEY] and rejections are not logged. *)
Definition handler (config : V1.serverConfig) (r : Request) : M (Machine World) unit :=
  let reqKey := Header_Get (Headers r) "X-GIT-SYNC-KEY" in
  if String.eqb reqKey "" then
    WriteHeader World StatusUnauthorized ;;
    Fprintf World ("Unauthorized" ++ LF)
  else if negb (keyExists config reqKey) then
    WriteHeader World StatusUnauthorized ;;
    Fprintf World ("Unauthorized" ++ LF)
  else if String.eqb (Method r) "GET" then
    WriteHeader World StatusOK ;;
    Fprintf World ("OK" ++ LF)
  else if negb (String.eqb (Method r) "POST") then
    WriteHeader World StatusMethodNotAllowed ;;
    Fprintf World ("GET or POST only" ++ LF)
  else
    let (repReq, err) := json_Decode (Body r) in
    match err with
    | Some e =>
        WriteHeader World StatusBadRequest ;;
        Fprintf World ("Bad Request: Failed to unmarshal json body: " ++ e ++ LF)
    | None =>
        if String.eqb (reqName repReq) "" then
          WriteHeader World StatusBadRequest ;;
          Fprintf World ("Bad Request: Repository name not provided" ++ LF)
        else
          match getRepository config (reqName repReq) with
          | (_, Some e) =>
              WriteHeader World StatusNotFound ;;
              Fprintf World ("Bad Request: Repository not found: " ++ e ++ LF)
          | (None, None) => ret tt (* never returned by [getRepository] *)
          | (Some repoConfig, None) =>
              if negb (validKey repoConfig reqKey) then
                WriteHeader World StatusUnauthorized ;;
                Fprintf World ("Unauthorized" ++ LF)
              else
                logOperation repoConfig ;;
                _ <- syncRepository repoConfig ;;
                ret tt
          end
    end.

Definition serve (config : V1.serverConfig) (r : Request) : M (Machine World) unit :=
  handler config r ;; finishRequest World.

End Server.

Arguments syncRepository {World} _ _ _.
Arguments handler {World} _ _ _ _ _.
Arguments serve {World} _ _ _ _ _.

(** The key a request carries under the older revision. *)
Definition requestKey (r : Request) : string := Header_Get (Headers r) "X-GIT-SYNC-KEY".

End V1Server.

(** ** The older configuration read as a current one *)

(** The repository with its API keys as tokens. *)
Definition upgradeRepository (r : V1.repositoryConfig) : repositoryConfig :=
  mkRepositoryConfig (V1.Name r) (V1.Local r) (V1.Remote r) (V1.Branch r) (V1.ApiKeys r).

(** The configuration with a master key, when there is one, as the only
    global token. *)
Definition upgrade (c : V1.serverConfig) : serverConfig :=
  mkServerConfig (V1.Address c) (V1.Port c)
    (if String.eqb (V1.MasterKey c) "" then [] else [V1.MasterKey c])
    (map upgradeRepository (V1.Repositories c)).

(** ** Startup *)

(** What [main] ends in before it serves requests: [os.Exit(code)], or the
    call [http.ListenAndServe(connStr, router)] with the handler closed over
    [config]. *)
Inductive Outcome :=
| Exit (code : nat)
| ListenAndServe (connStr : string) (config : serverConfig).

Definition configPathError : string :=
  "failed to find config file. use either GIT_SYNC_CONFIG_PATH or store config at /etc/git-sync/config.yaml".

Section Startup.

(** [os.LookupEnv(key)]: the value when the variable is set. *)
Variable LookupEnv : string -> option string.

(** [os.Stat(path)], its error only. *)
Variable Stat : string -> error.

(** [os.ReadFile(path)]. *)
Variable ReadFile : string -> string * error.

(** [yaml.Unmarshal(data, &sc)]: the configuration as decoded and the error. *)
Variable yaml_Unmarshal : string -> serverConfig * error.

Definition getConfigPath : string * error :=
  let defaultPath := "/etc/git-sync/config.yaml" in
  match LookupEnv "GIT_SYNC_CONFIG_PATH" with
  | Some path => (path, None)
  | None =>
      match Stat defaultPath with
      | Some _ => ("", Some configPathError)
      | None => (defaultPath, None)
      end
  end.

Definition loadConfig (path : string) : option serverConfig * error :=
  let (data, err) := ReadFile path in
  match err with
  | Some e => (None, Errorf "failed to read config file: " e)
  | None =>
      let (sc, err) := yaml_Unmarshal data in
      match err with
      | Some e => (None, Errorf "failed to unmarshal config file: " e)
      | None => (Some sc, None)
      end
  end.

(** [main] up to the call that serves: what it printed on standard output
    and how it ended. *)
Definition main : string * Outcome :=
  let (configPath, err) := getConfigPath in
  match err with
  | Some e => (("failed to get config path: " ++ e ++ LF)%string, Exit 1)
  | None =>
      match loadConfig configPath with
      | (_, Some e) => (("failed to load config: " ++ e ++ LF)%string, Exit 1)
      | (None, None) => (EmptyString, Exit 1) (* never returned by [loadConfig] *)
      | (Some config, None) =>
          let (config, err) := processConfig config in
          match err with
          | Some e => (("error in config: " ++ e ++ LF)%string, Exit 1)
          | None =>
              let connStr := (Address config ++ ":" ++ Port config)%string in
              (("Listening on " ++ connStr ++ LF)%string, ListenAndServe connStr config)
          end
      end
  end.

End Startup.

(** ** Example configurations, requests and test doubles *)

Module Examples.

(** The configuration of the README, as the YAML decoder hands it over. *)
Definition moduleLogger : repositoryConfig :=
  mkRepositoryConfig "module-logger" "/opt/module-logger"
    "https://github.com/uoracs/module-logger.git" "main" ["batman"].

Definition neovim : repositoryConfig :=
  mkRepositoryConfig "neovim" "/opt/neovim"
    "https://github.com/neovim/neovim.git" "main" ["spiderman"].

Definition readme : serverConfig :=
  mkServerConfig "0.0.0.0" "8654" ["zelda"] [moduleLogger; neovim].

(** The same deployment with a second global token and no address. *)
Definition twoGlobals : serverConfig :=
  mkServerConfig "" "" ["zelda"; "link"] [moduleLogger; neovim].

(** A deployment without repositories. *)
Definition noRepositories : serverConfig :=
  mkServerConfig "127.0.0.1" "" ["zelda"] [].

(** The older revision's configuration with nothing set. *)
Definition emptyV1 : V1.serverConfig := V1.mkServerConfig "" "" "" [] "".

(** A command runner under which every command succeeds. *)
Definition runsClean (cmd : Cmd) (os : unit) : error * unit := (None, os).

(** A command runner under which the git subcommand [verb] exits with status
    1 and every other command succeeds. *)
Definition failsAt (verb : string) (cmd : Cmd) (os : unit) : error * unit :=
  match Args cmd with
  | v :: _ => if String.eqb v verb then (Some "exit status 1", os) else (None, os)
  | [] => (None, os)
  end.

Definition dquote : ascii := "034"%char.

(** The characters of [s] up to the closing quote, when only the closing brace
    follows it. *)
Fixpoint quotedName (s : string) : option string :=
  match s with
  | EmptyString => None
  | String c rest =>
      if Ascii.eqb c dquote
      then (if String.eqb rest "}" then Some EmptyString else None)
      else option_map (String c) (quotedName rest)
  end.

Fixpoint stripPrefix (p s : string) : option string :=
  match p, s with
  | EmptyString, _ => Some s
  | String a p', String b s' => if Ascii.eqb a b then stripPrefix p' s' else None
  | String _ _, EmptyString => None
  end.

(** Opening of a body with a [name] member: brace, quoted key, colon, quote. *)
Definition nameOpening : string :=
  ("{" ++ String dquote "name" ++ String dquote ":" ++ String dquote "")%string.

(** A stand-in for the JSON decoder: it accepts the empty object and an object
    whose one member is [name] with a plain string, written without spaces; on
    anything else it reports an error. *)
Definition decodeName (b : string) : repositoryRequest * error :=
  if String.eqb b "{}" then (mkRepositoryRequest "", None)
  else match stripPrefix nameOpening b with
       | Some rest =>
           match quotedName rest with
           | Some n => (mkRepositoryRequest n, None)
           | None => (mkRepositoryRequest "", Some "unexpected end of JSON input")
           end
       | None => (mkRepositoryRequest "", Some "invalid character")
       end.

(** The body that names repository [n]. *)
Definition naming (n : string) : string :=
  (nameOpening ++ n ++ String dquote "}")%string.

Definition tokenHeader (t : string) : Header := [("X-Git-Sync-Token", [t])].

Definition post (t n : string) : Request := mkRequest "POST" (tokenHeader t) (naming n).

Definition get (t : string) : Request := mkRequest "GET" (tokenHeader t) "".

End Examples.

(** The README's configuration after processing. *)
Definition readmeProcessed : serverConfig := fst (processConfig Examples.readme).

Definition moduleLoggerProcessed : repositoryConfig :=
  set_Tokens ["batman"; "zelda"] Examples.moduleLogger.

Definition neovimProcessed : repositoryConfig :=
  set_Tokens ["spiderman"; "zelda"] Examples.neovim.

(** ** Test doubles for the operating system and the YAML decoder *)

Module Doubles.

(** An environment in which only [GIT_SYNC_CONFIG_PATH] may be set. *)
Definition env (configPath : option string) (key : string) : option string :=
  if String.eqb key "GIT_SYNC_CONFIG_PATH" then configPath else None.

(** A file system that holds the files [files], path and content. *)
Fixpoint content (files : list (string * string)) (path : string) : option string :=
  match files with
  | [] => None
  | (p, data) :: rest => if String.eqb p path then Some data else content rest path
  end.

Definition stat (files : list (string * string)) (path : string) : error :=
  match content files path with
  | Some _ => None
  | None => Some ("stat " ++ path ++ ": no such file or directory")%string
  end.

Definition readFile (files : list (string * string)) (path : string) : string * error :=
  match content files path with
  | Some data => (data, None)
  | None => ("", Some ("open " ++ path ++ ": no such file or directory")%string)
  end.

(** A decoder that knows the documents of [docs] and rejects every other. *)
Fixpoint unmarshal (docs : list (string * serverConfig)) (data : string)
  : serverConfig * error :=
  match docs with
  | [] => (mkServerConfig "" "" [] [], Some "yaml: unmarshal errors")
  | (d, c) :: rest => if String.eqb d data then (c, None) else unmarshal rest data
  end.

(** A repository configured without a branch. *)
Definition noBranch : repositoryConfig :=
  mkRepositoryConfig "docs" "/opt/docs" "https://example.org/docs.git" "" ["abc"].

(** A repository configured without a local path. *)
Definition noLocal : repositoryConfig :=
  mkRepositoryConfig "broken" "" "https://example.org/broken.git" "main" [].

(** Two repositories under one name. *)
Definition shadowing : repositoryConfig :=
  mkRepositoryConfig "docs" "/srv/docs" "https://example.org/other.git" "main" ["xyz"].

(** The README's deployment in the older revision's format. *)
Definition readmeV1 : V1.serverConfig :=
  V1.mkServerConfig "" "" "zelda"
    [V1.mkRepositoryConfig "module-logger" "/opt/module-logger"
       "https://github.com/uoracs/module-logger.git" "main" ["batman"];
     V1.mkRepositoryConfig "neovim" "/opt/neovim"
       "https://github.com/neovim/neovim.git" "main" ["spiderman"]]
    "".

Definition keyHeader (k : string) : Header := [("X-Git-Sync-Key", [k])].

(** The README's repositories with an incomplete one between them. *)
Definition oneIncomplete : serverConfig :=
  mkServerConfig "" "" ["zelda"] [Examples.moduleLogger; noLocal; Examples.neovim].

(** A deployment whose only repository has no branch. *)
Definition branchless : serverConfig := mkServerConfig "" "" ["zelda"] [noBranch].

(** A deployment with two repositories under the name [docs]. *)
Definition duplicated : serverConfig := mkServerConfig "" "" [] [noBranch; shadowing].

(** The first repository of the README under another name and remote. *)
Definition mirror : repositoryConfig :=
  mkRepositoryConfig "mirror" "/opt/module-logger" "https://example.org/mirror.git" "main" [].

(** The README's deployment in the older format, bound to one address. *)
Definition readmeV1Bound : V1.serverConfig := V1.set_Address "10.0.0.1" readmeV1.

(** A file system with a configuration at the default path. *)
Definition documentedPathOnly : list (string * string) :=
  [("/etc/git-sync/config.yaml", "two-globals")].

(** A decoder that knows that document. *)
Definition knownDocuments : list (string * serverConfig) :=
  [("two-globals", Examples.twoGlobals)].

End Doubles.

(** ** Vocabulary of the statements *)

(** A repository that passes the validation of [processConfig]. *)
Definition complete (r : repositoryConfig) : Prop :=
  Name r <> "" /\ Local r <> "" /\ Remote r <> "".

(** The error [processConfig] reports for a repository that does not. *)
Definition missingValue (r : repositoryConfig) : string :=
  if String.eqb (Name r) "" then "repository config missing name value"
  else if String.eqb (Local r) "" then "repository config missing local value"
  else "repository config missing remote value".

(** The response the handler's decisions lead to, read off the request and
    the configuration alone. *)
Definition answerOf (json_Decode : string -> repositoryRequest * error)
           (config : serverConfig) (r : Request) : ResponseWriter :=
  let unauthorized := mkResponseWriter true StatusUnauthorized ("Unauthorized" ++ LF) in
  let accepted := mkResponseWriter true StatusOK "" in
  if String.eqb (requestToken r) "" then unauthorized
  else if negb (tokenExists config (requestToken r)) then unauthorized
  else if String.eqb (Method r) "GET" then mkResponseWriter true StatusOK ("OK" ++ LF)
  else if negb (String.eqb (Method r) "POST")
  then mkResponseWriter true StatusMethodNotAllowed ("GET or POST only" ++ LF)
  else
    let (repReq, err) := json_Decode (Body r) in
    match err with
    | Some e =>
        mkResponseWriter true StatusBadRequest
          ("Bad Request: Failed to unmarshal json body: " ++ e ++ LF)
    | None =>
        if String.eqb (reqName repReq) ""
        then mkResponseWriter true StatusBadRequest
               ("Bad Request: Repository name not provided" ++ LF)
        else
          match getRepository config (reqName repReq) with
          | (_, Some e) =>
              mkResponseWriter true StatusNotFound
                ("Bad Request: Repository not found: " ++ e ++ LF)
          | (None, None) => accepted
          | (Some repoConfig, None) =>
              if negb (validToken repoConfig (requestToken r)) then unauthorized
              else accepted
          end
    end.

(** The tokens of a repository after one round of inheritance. *)
Definition inheritedTokens (globals own : list string) : list string :=
  match globals with
  | [] => own
  | g :: rest => own ++ [last rest g]
  end.

(** ** The inheritance loop in closed form *)

(** What the inheritance loop leaves in one repository: with global tokens,
    its own tokens followed by the last global token. *)
Definition inherited (globals : list string) (r : repositoryConfig) : repositoryConfig :=
  match globals with
  | [] => r
  | g :: rest => set_Tokens (Tokens r ++ [last rest g]) r
  end.

(** ** Proof steps shared by the handler's theorems *)

(** Unfolds one served request down to the handler's decisions, with the
    request's token named [tok]. *)
Ltac open_handler r :=
  unfold response, started, serve, handler;
  fold (requestToken r);
  set (tok := requestToken r) in *.

(** Decides a string comparison the hypotheses settle. *)
Ltac settle_eqb x y :=
  let E := fresh "E" in
  destruct (String.eqb_spec x y) as [E|E]; [try contradiction | try contradiction].

(** * Properties *)

(** ** The README's deployment, computed *)

Example readme_processed :
  processConfig Examples.readme
  = (mkServerConfig "0.0.0.0" "8654" ["zelda"]
       [set_Tokens ["batman"; "zelda"] Examples.moduleLogger;
        set_Tokens ["spiderman"; "zelda"] Examples.neovim], None).
Proof. reflexivity. Qed.

Example decodeName_naming : Examples.decodeName (Examples.naming "docs") = (mkRepositoryRequest "docs", None).
Proof. reflexivity. Qed.

Example post_module_logger :
  let cfg := fst (processConfig Examples.readme) in
  let rq := Examples.post "batman" "module-logger" in
  status (response Examples.runsClean Examples.decodeName cfg rq tt) = 200
  /\ body (response Examples.runsClean Examples.decodeName cfg rq tt) = ""
  /\ started Examples.runsClean Examples.decodeName cfg rq tt
     = [fetchCmd Examples.moduleLogger; resetCmd Examples.moduleLogger;
        cleanCmd Examples.moduleLogger].
Proof. repeat split. Qed.

(** ** Membership and lookup *)

Lemma slices_Contains_In (s : list string) (v : string) :
  slices_Contains s v = true <-> In v s.
Proof.
  induction s as [|x rest IH]; simpl.
  - split; [discriminate | tauto].
  - destruct (String.eqb_spec x v) as [->|Hne].
    + split; auto.
    + rewrite IH. split; [auto | intros [H|H]; [contradiction | exact H]].
Qed.

Lemma slices_Contains_append (s : list string) (t v : string) :
  slices_Contains (append s t) v = slices_Contains s v || String.eqb t v.
Proof.
  unfold append. induction s as [|x rest IH]; simpl.
  - destruct (String.eqb t v); reflexivity.
  - destruct (String.eqb x v); [reflexivity | exact IH].
Qed.

Lemma findRepository_In (rs : list repositoryConfig) (name : string) (r : repositoryConfig) :
  findRepository rs name = Some r -> In r rs /\ Name r = name.
Proof.
  induction rs as [|x rest IH]; simpl; [discriminate|].
  destruct (String.eqb_spec (Name x) name) as [Heq|Hne].
  - intros [= ->]. auto.
  - intros H. destruct (IH H). auto.
Qed.

Lemma findRepository_None (rs : list repositoryConfig) (name : string) :
  findRepository rs name = None <-> (forall r, In r rs -> Name r <> name).
Proof.
  induction rs as [|x rest IH]; simpl.
  - split; [intros _ r [] | reflexivity].
  - destruct (String.eqb_spec (Name x) name) as [Heq|Hne].
    + split; [discriminate | intros H; exfalso; exact (H x (or_introl eq_refl) Heq)].
    + rewrite IH. split.
      * intros H r [<-|Hin]; auto.
      * intros H r Hin. apply H. auto.
Qed.

(** [getRepository] hands back a repository exactly when it hands back no
    error: the handler never dereferences [nil]. *)
Lemma getRepository_cases (sc : serverConfig) (name : string) :
  (exists r, getRepository sc name = (Some r, None) /\ In r (Repositories sc) /\ Name r = name)
  \/ (getRepository sc name
        = (None, Some ("failed to find configured repository with name: " ++ name)%string)
      /\ forall r, In r (Repositories sc) -> Name r <> name).
Proof.
  unfold getRepository.
  destruct (findRepository (Repositories sc) name) as [r|] eqn:E.
  - left. exists r. destruct (findRepository_In _ _ _ E). auto.
  - right. split; [reflexivity | apply findRepository_None; exact E].
Qed.

Lemma anyRepositoryContains_true (rs : list repositoryConfig) (key : string) :
  anyRepositoryContains rs key = true <-> exists r, In r rs /\ validToken r key = true.
Proof.
  unfold validToken. induction rs as [|x rest IH]; simpl.
  - split; [discriminate | intros [r [[] _]]].
  - destruct (slices_Contains (Tokens x) key) eqn:E.
    + split; [intros _; exists x; auto | reflexivity].
    + rewrite IH. split.
      * intros [r [Hin Hr]]. exists r. auto.
      * intros [r [[<-|Hin] Hr]]; [congruence | exists r; auto].
Qed.

(** [tokenExists] is the disjunction of [validToken] over the repositories. *)
Lemma tokenExists_true (sc : serverConfig) (key : string) :
  tokenExists sc key = true <-> exists r, In r (Repositories sc) /\ validToken r key = true.
Proof. apply anyRepositoryContains_true. Qed.

(** ** Configuration processing *)

Lemma assign_Tokens_twice (i : nat) (a b : list string) (rs : list repositoryConfig) :
  assign_Tokens i a (assign_Tokens i b rs) = assign_Tokens i a rs.
Proof.
  revert i. induction rs as [|r rest IH]; intros [|j]; simpl; try reflexivity.
  now rewrite IH.
Qed.

Lemma assign_Tokens_middle (done todo : list repositoryConfig) (r : repositoryConfig)
      (ts : list string) :
  assign_Tokens (List.length done) ts (done ++ r :: todo) = done ++ set_Tokens ts r :: todo.
Proof. induction done as [|d done IH]; simpl; [reflexivity | now rewrite IH]. Qed.

Lemma last_cons_default (gs : list string) (h g : string) :
  last (h :: gs) g = last gs h.
Proof.
  revert h g. induction gs as [|k gs IH]; intros h g; [reflexivity|].
  change (last (h :: k :: gs) g) with (last (k :: gs) g).
  rewrite IH. symmetry. apply IH.
Qed.

Lemma fold_assign_last (i : nat) (own : list string) (gs : list string) (g : string)
      (c : serverConfig) :
  fold_left
    (fun (c : serverConfig) (t : string) =>
       set_Repositories (assign_Tokens i (append own t) (Repositories c)) c)
    (g :: gs) c
  = set_Repositories (assign_Tokens i (append own (last gs g)) (Repositories c)) c.
Proof.
  revert g c. induction gs as [|h gs IH]; intros g c.
  - reflexivity.
  - change (fold_left ?f (g :: h :: gs) c) with (fold_left f (h :: gs) (f c g)).
    rewrite IH. unfold set_Repositories; simpl Repositories.
    rewrite assign_Tokens_twice, last_cons_default. reflexivity.
Qed.

Lemma rangeGlobalTokens_spec (i : nat) (r : repositoryConfig) (c : serverConfig) :
  (if Nat.ltb 0 (List.length (GlobalTokens c)) then rangeGlobalTokens i r c else c)
  = match GlobalTokens c with
    | [] => c
    | g :: gs =>
        set_Repositories
          (assign_Tokens i (Tokens r ++ [last gs g]) (Repositories c)) c
    end.
Proof.
  unfold rangeGlobalTokens. destruct (GlobalTokens c) as [|g gs]; [reflexivity|].
  simpl Nat.ltb. cbv iota. apply fold_assign_last.
Qed.

(** The loop over the repositories, started at index [length done] with
    [todo] still to visit: on success every visited repository holds its
    inherited tokens and nothing else has changed. *)
Lemma rangeRepositories_spec (todo done : list repositoryConfig) (c c' : serverConfig) :
  Repositories c = done ++ todo ->
  rangeRepositories (List.length done) todo c = (c', None) ->
  Repositories c' = done ++ map (inherited (GlobalTokens c)) todo
  /\ Address c' = Address c /\ Port c' = Port c /\ GlobalTokens c' = GlobalTokens c
  /\ forall r, In r todo -> Name r <> "" /\ Local r <> "" /\ Remote r <> "".
Proof.
  revert done c. induction todo as [|r rest IH]; intros done c Hc.
  - simpl. intros [= <-]. rewrite app_nil_r in *. repeat split; auto; contradiction.
  - cbn [rangeRepositories].
    destruct (String.eqb_spec (Name r) "") as [|Hn]; [discriminate|].
    destruct (String.eqb_spec (Local r) "") as [|Hl]; [discriminate|].
    destruct (String.eqb_spec (Remote r) "") as [|Hr]; [discriminate|].
    cbv zeta. rewrite rangeGlobalTokens_spec.
    assert (Ht : Tokens (if String.eqb (Branch r) "" then set_Branch "main" r else r) = Tokens r)
      by (destruct (String.eqb (Branch r) ""); reflexivity).
    rewrite Ht. clear Ht.
    destruct (GlobalTokens c) as [|g gs] eqn:Eg.
    + replace (S (List.length done)) with (List.length (done ++ [r]))
        by (rewrite length_app; simpl; lia).
      intros H. apply IH in H; [|rewrite Hc, <- app_assoc; reflexivity].
      rewrite Eg in H. destruct H as (H1 & H2 & H3 & H4 & H5).
      rewrite <- app_assoc in H1. simpl in H1.
      split; [exact H1|]. split; [exact H2|]. split; [exact H3|]. split; [exact H4|].
      intros x [<-|Hin]; [auto | exact (H5 x Hin)].
    + set (r' := set_Tokens (Tokens r ++ [last gs g]) r).
      replace (S (List.length done)) with (List.length (done ++ [r']))
        by (rewrite length_app; simpl; lia).
      intros H. apply IH in H.
      * simpl GlobalTokens in H. rewrite Eg in H.
        destruct H as (H1 & H2 & H3 & H4 & H5).
        rewrite <- app_assoc in H1. simpl in H1.
        split; [exact H1|]. split; [exact H2|]. split; [exact H3|]. split; [exact H4|].
        intros x [<-|Hin]; [auto | exact (H5 x Hin)].
      * simpl Repositories. rewrite Hc, assign_Tokens_middle, <- app_assoc. reflexivity.
Qed.

(** [processConfig], when it reports no error: every repository holds its own
    tokens followed by the last global token (nothing is added when there are
    no global tokens), and every repository has a name, a path and a remote. *)
Lemma processConfig_spec (c c' : serverConfig) :
  processConfig c = (c', None) ->
  Repositories c' = map (inherited (GlobalTokens c)) (Repositories c)
  /\ GlobalTokens c' = GlobalTokens c
  /\ forall r, In r (Repositories c) -> Name r <> "" /\ Local r <> "" /\ Remote r <> "".
Proof.
  unfold processConfig. cbv zeta. intros H.
  apply (rangeRepositories_spec _ []) in H.
  - destruct H as (H1 & _ & _ & H4 & H5). simpl in H1.
    assert (HR : forall x, Repositories (if String.eqb (Port x) "" then set_Port "8654" x else x)
                           = Repositories x)
      by (intros x; destruct (String.eqb (Port x) ""); reflexivity).
    assert (HG : forall x, GlobalTokens (if String.eqb (Port x) "" then set_Port "8654" x else x)
                           = GlobalTokens x)
      by (intros x; destruct (String.eqb (Port x) ""); reflexivity).
    assert (HR' : Repositories (if String.eqb (Address c) "" then set_Address "0.0.0.0" c else c)
                  = Repositories c)
      by (destruct (String.eqb (Address c) ""); reflexivity).
    assert (HG' : GlobalTokens (if String.eqb (Address c) "" then set_Address "0.0.0.0" c else c)
                  = GlobalTokens c)
      by (destruct (String.eqb (Address c) ""); reflexivity).
    rewrite HR, HG, HR', HG' in *. auto.
  - reflexivity.
Qed.

(** With exactly one global token the inheritance is complete: every
    repository of the processed configuration accepts it. *)
Lemma processConfig_single_global (c c' : serverConfig) (g : string) :
  GlobalTokens c = [g] ->
  processConfig c = (c', None) ->
  forall r, In r (Repositories c') -> validToken r g = true.
Proof.
  intros Hg H r Hin. apply processConfig_spec in H. destruct H as (HR & _ & _).
  rewrite HR, Hg in Hin. apply in_map_iff in Hin. destruct Hin as (r0 & <- & _).
  unfold validToken. simpl. apply slices_Contains_In, in_or_app. right. simpl. auto.
Qed.

(** A global token other than the last one reaches no repository that did not
    list it itself. *)
Lemma processConfig_earlier_global_lost (c c' : serverConfig) (g : string) (r : repositoryConfig) :
  processConfig c = (c', None) ->
  g <> last (GlobalTokens c) "" ->
  In r (Repositories c) ->
  ~ In g (Tokens r) ->
  In (inherited (GlobalTokens c) r) (Repositories c')
  /\ validToken (inherited (GlobalTokens c) r) g = false.
Proof.
  intros H Hlast Hin Hown. apply processConfig_spec in H. destruct H as (HR & _ & _).
  split; [rewrite HR; apply in_map; exact Hin|].
  unfold validToken. destruct (GlobalTokens c) as [|h gs] eqn:Eg; simpl.
  - apply not_true_is_false. rewrite slices_Contains_In. exact Hown.
  - apply not_true_is_false. rewrite slices_Contains_In. intros Hi.
    apply in_app_or in Hi. destruct Hi as [Hi|[Hi|[]]]; [exact (Hown Hi)|].
    apply Hlast. rewrite last_cons_default. symmetry. exact Hi.
Qed.

(** C1 (fails on the code): with the global tokens [zelda] and [link],
    processing the README's repositories succeeds and leaves each repository
    with its own token followed by [link] only; [zelda] is a global token and
    [validToken] refuses it for every repository. *)
Theorem processConfig_two_globals_first_refused :
  snd (processConfig Examples.twoGlobals) = None
  /\ GlobalTokens (fst (processConfig Examples.twoGlobals)) = ["zelda"; "link"]
  /\ Repositories (fst (processConfig Examples.twoGlobals))
     = [set_Tokens ["batman"; "link"] Examples.moduleLogger;
        set_Tokens ["spiderman"; "link"] Examples.neovim]
  /\ forall r, In r (Repositories (fst (processConfig Examples.twoGlobals))) ->
               validToken r "zelda" = false.
Proof.
  repeat split.
  intros r [<-|[<-|[]]]; reflexivity.
Qed.

(** The address and the port under the current revision. *)
Lemma rangeRepositories_Address_Port (todo : list repositoryConfig) (i : nat) (c : serverConfig) :
  Address (fst (rangeRepositories i todo c)) = Address c
  /\ Port (fst (rangeRepositories i todo c)) = Port c.
Proof.
  revert i c. induction todo as [|r rest IH]; intros i c; [split; reflexivity|].
  cbn [rangeRepositories].
  destruct (String.eqb (Name r) ""); [split; reflexivity|].
  destruct (String.eqb (Local r) ""); [split; reflexivity|].
  destruct (String.eqb (Remote r) ""); [split; reflexivity|].
  cbv zeta. rewrite rangeGlobalTokens_spec.
  destruct (IH (S i)
              match GlobalTokens c with
              | [] => c
              | g :: gs =>
                  set_Repositories
                    (assign_Tokens i
                       (Tokens (if String.eqb (Branch r) "" then set_Branch "main" r else r)
                        ++ [last gs g]) (Repositories c)) c
              end) as [HA HP].
  rewrite HA, HP. destruct (GlobalTokens c); split; reflexivity.
Qed.

(** The current revision keeps an address that is set, replaces an empty one
    by the IPv4 wildcard, and defaults an empty port to 8654. *)
Lemma processConfig_Address_Port (c : serverConfig) :
  Address (fst (processConfig c)) = (if String.eqb (Address c) "" then "0.0.0.0" else Address c)
  /\ Port (fst (processConfig c)) = (if String.eqb (Port c) "" then "8654" else Port c).
Proof.
  unfold processConfig. cbv zeta.
  destruct (String.eqb (Address c) ""); simpl Port;
    destruct (String.eqb (Port c) "");
    match goal with
    | |- context [rangeRepositories 0 ?t ?x] =>
        destruct (rangeRepositories_Address_Port t 0 x) as [HA HP]
    end;
    rewrite HA, HP; split; reflexivity.
Qed.

(** The older revision never changes the address. *)
Lemma V1_rangeRepositories_Address_Port (todo : list V1.repositoryConfig) (i : nat)
      (c : V1.serverConfig) :
  V1.Address (fst (V1.rangeRepositories i todo c)) = V1.Address c
  /\ V1.Port (fst (V1.rangeRepositories i todo c)) = V1.Port c.
Proof.
  revert i c. induction todo as [|r rest IH]; intros i c; [split; reflexivity|].
  cbn [V1.rangeRepositories].
  destruct (String.eqb (V1.Name r) ""); [split; reflexivity|].
  destruct (String.eqb (V1.Local r) ""); [split; reflexivity|].
  destruct (String.eqb (V1.Remote r) ""); [split; reflexivity|].
  cbv zeta.
  match goal with
  | |- context [V1.rangeRepositories (S i) rest ?x] => destruct (IH (S i) x) as [HA HP]
  end.
  rewrite HA, HP. destruct (negb (String.eqb (V1.MasterKey c) "")); split; reflexivity.
Qed.

Lemma V1_processConfig_Address_Port (c : V1.serverConfig) :
  V1.Address (fst (V1.processConfig c)) = V1.Address c
  /\ V1.Port (fst (V1.processConfig c))
     = (if String.eqb (V1.Port c) "" then "8654" else V1.Port c).
Proof.
  unfold V1.processConfig. cbv zeta.
  destruct (String.eqb_spec (V1.Address c) "") as [E|E]; simpl V1.Port;
    destruct (String.eqb (V1.Port c) ""); simpl V1.LogDirectory;
    destruct (String.eqb (V1.LogDirectory c) "");
    match goal with
    | |- context [V1.rangeRepositories 0 ?t ?x] =>
        destruct (V1_rangeRepositories_Address_Port t 0 x) as [HA HP]
    end;
    rewrite HA, HP; simpl; rewrite ?E; split; reflexivity.
Qed.

(** C8 (fails on the current revision): a raw configuration whose address and
    port are both empty comes out of [processConfig] with the address
    rewritten to the wildcard [0.0.0.0] and the port defaulted to [8654]; the
    older revision leaves the empty address empty and defaults the port. *)
Theorem processConfig_rewrites_empty_address :
  Address Examples.twoGlobals = ""
  /\ Address (fst (processConfig Examples.twoGlobals)) = "0.0.0.0"
  /\ Port (fst (processConfig Examples.twoGlobals)) = "8654"
  /\ V1.Address (fst (V1.processConfig Examples.emptyV1)) = ""
  /\ V1.Port (fst (V1.processConfig Examples.emptyV1)) = "8654".
Proof. repeat split. Qed.

(** ** Slices underneath the inheritance loop *)

Lemma Slice_store_length {A : Type} (i : nat) (v : A) (l : list A) :
  List.length (Slice.store i v l) = List.length l.
Proof.
  revert i. induction l as [|x l IH]; intros [|j]; simpl; auto.
Qed.

Lemma Slice_nth_store {A : Type} (i : nat) (v d : A) (l : list A) :
  i < List.length l -> nth i (Slice.store i v l) d = v.
Proof.
  revert i. induction l as [|x l IH]; intros [|j]; simpl; intros H; try lia; auto.
  apply IH. lia.
Qed.

Lemma Slice_firstn_store {A : Type} (n : nat) (v : A) (l : list A) :
  firstn n (Slice.store n v l) = firstn n l.
Proof.
  revert n. induction l as [|x l IH]; intros [|j]; simpl; auto.
  now rewrite IH.
Qed.

Lemma Slice_firstn_S_store {A : Type} (n : nat) (v : A) (l : list A) :
  n < List.length l -> firstn (S n) (Slice.store n v l) = firstn n l ++ [v].
Proof.
  revert n. induction l as [|x l IH]; intros [|j]; simpl; intros H; try lia; auto.
  f_equal. apply IH. lia.
Qed.

Section SliceAppend.

Variable grow : nat -> nat.
Hypothesis grow_more : forall n, n < grow n.

(** One [append]: the header returned denotes the old value followed by the
    new element, and the header appended to still denotes the old value. *)
Lemma Slice_append_value (h : Slice.heap) (s : Slice.header) (v : string) :
  Slice.wellFormed h s ->
  Slice.view (fst (Slice.goAppend grow h s v)) (snd (Slice.goAppend grow h s v))
  = append (Slice.view h s) v
  /\ Slice.view (fst (Slice.goAppend grow h s v)) s = Slice.view h s
  /\ Slice.wellFormed (fst (Slice.goAppend grow h s v)) s.
Proof.
  intros (Harr & Hlen & Hcells).
  unfold Slice.goAppend, Slice.view, Slice.wellFormed, Slice.cells, append in *.
  destruct (Nat.ltb_spec (Slice.len s) (Slice.cap s)) as [Hlt|Hge];
    cbn [fst snd Slice.array Slice.len Slice.cap].
  - rewrite (Slice_nth_store _ _ _ _ Harr), Slice_firstn_store, Slice_store_length.
    rewrite Slice_firstn_S_store by lia. rewrite Slice_store_length. auto.
  - rewrite length_app. cbn [List.length].
    rewrite (app_nth1 h _ [] Harr).
    rewrite nth_middle.
    assert (Hl : Slice.len s = Slice.cap s) by lia.
    assert (Hfull : firstn (Slice.len s) (nth (Slice.array s) h []) = nth (Slice.array s) h [])
      by (apply firstn_all2; lia).
    rewrite Hfull. split; [|split; [reflexivity | split; [lia | auto]]].
    change (?a ++ v :: ?b) with (a ++ [v] ++ b). rewrite app_assoc.
    replace (S (Slice.len s)) with (List.length (nth (Slice.array s) h [] ++ [v]))
      by (rewrite length_app; simpl; lia).
    rewrite firstn_app, firstn_all, Nat.sub_diag. simpl. now rewrite app_nil_r.
Qed.

(** The inheritance loop on headers: after appending each of [g :: gs] to the
    header [r], the header stored last denotes the value of [r] followed by
    the last element only, whatever capacity [r] had to spare. *)
Lemma Slice_appendEach_value (gs : list string) (g : string) (h : Slice.heap)
      (r stored : Slice.header) :
  Slice.wellFormed h r ->
  Slice.view (fst (Slice.appendEach grow h r stored (g :: gs)))
             (snd (Slice.appendEach grow h r stored (g :: gs)))
  = Slice.view h r ++ [last gs g].
Proof.
  revert g h stored. induction gs as [|g' gs IH]; intros g h stored Hwf.
  - simpl. destruct (Slice.goAppend grow h r g) as [h' s'] eqn:E.
    pose proof (Slice_append_value h r g Hwf) as (Hv & _ & _).
    rewrite E in Hv. exact Hv.
  - change (Slice.appendEach grow h r stored (g :: g' :: gs))
      with (let (h', stored') := Slice.goAppend grow h r g in
            Slice.appendEach grow h' r stored' (g' :: gs)).
    pose proof (Slice_append_value h r g Hwf) as (_ & Hsame & Hwf').
    destruct (Slice.goAppend grow h r g) as [h' s'] eqn:E. simpl fst in *.
    rewrite IH by exact Hwf'. rewrite Hsame.
    change (last (g' :: gs) g) with (match gs with [] => g' | _ :: _ => last gs g end).
    destruct gs as [|g'' gs']; [reflexivity|].
    f_equal. f_equal. symmetry. apply (last_cons_default (g'' :: gs') g' g).
Qed.

End SliceAppend.

(** ** The sync engine *)

Section Engine.

Variable World : Type.
Variable cmd_Run : Cmd -> World -> error * World.

(** One synchronisation, read off the answers of the three commands. *)
Lemma syncRepository_run (r : repositoryConfig) (s : Machine World) :
  syncRepository cmd_Run r s
  = match cmd_Run (fetchCmd r) (world s) with
    | (Some e, os1) =>
        (Some ("failed to sync repository: failed to fetch origin: " ++ e)%string,
         mkMachine os1 (invocations s ++ [fetchCmd r]) (logged s) (w s))
    | (None, os1) =>
        match cmd_Run (resetCmd r) os1 with
        | (Some e, os2) =>
            (Some ("failed to sync repository: failed to reset origin: " ++ e)%string,
             mkMachine os2 ((invocations s ++ [fetchCmd r]) ++ [resetCmd r])
                       (logged s) (w s))
        | (None, os2) =>
            match cmd_Run (cleanCmd r) os2 with
            | (Some e, os3) =>
                (Some ("failed to clean repository: failed to clean untracked files: "
                       ++ e)%string,
                 mkMachine os3
                           (((invocations s ++ [fetchCmd r]) ++ [resetCmd r]) ++ [cleanCmd r])
                           (logged s) (w s))
            | (None, os3) =>
                (None,
                 mkMachine os3
                           (((invocations s ++ [fetchCmd r]) ++ [resetCmd r]) ++ [cleanCmd r])
                           (logged s) (w s))
            end
        end
    end.
Proof.
  unfold syncRepository, fetchRepository, resetRepository, cleanRepository, bind, ret, Run,
    Errorf, exec_Command, set_Dir, fetchCmd, resetCmd, cleanCmd.
  cbn [Path Args Dir world invocations logged w].
  destruct (cmd_Run _ (world s)) as [[e|] os1]; [reflexivity|].
  cbn [world invocations logged w].
  destruct (cmd_Run _ os1) as [[e|] os2]; [reflexivity|].
  cbn [world invocations logged w].
  destruct (cmd_Run _ os2) as [[e|] os3]; reflexivity.
Qed.

(** Whatever the commands answer, one synchronisation starts a non-empty
    prefix of fetch, reset, clean and touches neither the log nor the
    response. *)
Lemma syncRepository_frame (r : repositoryConfig) (s : Machine World) :
  (exists k, 1 <= k <= 3 /\
     invocations (snd (syncRepository cmd_Run r s))
     = invocations s ++ firstn k [fetchCmd r; resetCmd r; cleanCmd r])
  /\ logged (snd (syncRepository cmd_Run r s)) = logged s
  /\ w (snd (syncRepository cmd_Run r s)) = w s.
Proof.
  rewrite syncRepository_run.
  destruct (cmd_Run (fetchCmd r) (world s)) as [[e|] os1].
  - simpl. split; [exists 1; split; [lia | reflexivity] | auto].
  - destruct (cmd_Run (resetCmd r) os1) as [[e|] os2].
    + simpl. rewrite <- app_assoc.
      split; [exists 2; split; [lia | reflexivity] | auto].
    + destruct (cmd_Run (cleanCmd r) os2) as [[e|] os3]; simpl; rewrite <- !app_assoc;
        (split; [exists 3; split; [lia | reflexivity] | auto]).
Qed.

(** C2: [syncRepository] starts the fetch first; a failing fetch ends it with
    the wrapped fetch error after that single command; otherwise the reset
    comes next and a failing reset ends it with the wrapped reset error after
    those two commands; otherwise the clean comes last and its failure is
    returned wrapped; when all three succeed the result is [nil] after the
    three commands in that order. *)
Theorem syncRepository_stops_at_first_failure (r : repositoryConfig) (s : Machine World) :
  (forall e os1,
      cmd_Run (fetchCmd r) (world s) = (Some e, os1) ->
      fst (syncRepository cmd_Run r s)
      = Some ("failed to sync repository: failed to fetch origin: " ++ e)%string
      /\ invocations (snd (syncRepository cmd_Run r s)) = invocations s ++ [fetchCmd r])
  /\ (forall os1 e os2,
      cmd_Run (fetchCmd r) (world s) = (None, os1) ->
      cmd_Run (resetCmd r) os1 = (Some e, os2) ->
      fst (syncRepository cmd_Run r s)
      = Some ("failed to sync repository: failed to reset origin: " ++ e)%string
      /\ invocations (snd (syncRepository cmd_Run r s))
         = invocations s ++ [fetchCmd r; resetCmd r])
  /\ (forall os1 os2 e os3,
      cmd_Run (fetchCmd r) (world s) = (None, os1) ->
      cmd_Run (resetCmd r) os1 = (None, os2) ->
      cmd_Run (cleanCmd r) os2 = (Some e, os3) ->
      fst (syncRepository cmd_Run r s)
      = Some ("failed to clean repository: failed to clean untracked files: " ++ e)%string
      /\ invocations (snd (syncRepository cmd_Run r s))
         = invocations s ++ [fetchCmd r; resetCmd r; cleanCmd r])
  /\ (forall os1 os2 os3,
      cmd_Run (fetchCmd r) (world s) = (None, os1) ->
      cmd_Run (resetCmd r) os1 = (None, os2) ->
      cmd_Run (cleanCmd r) os2 = (None, os3) ->
      fst (syncRepository cmd_Run r s) = None
      /\ invocations (snd (syncRepository cmd_Run r s))
         = invocations s ++ [fetchCmd r; resetCmd r; cleanCmd r]).
Proof.
  rewrite syncRepository_run.
  split; [|split; [|split]].
  - intros e os1 H1. rewrite H1. split; reflexivity.
  - intros os1 e os2 H1 H2. rewrite H1, H2. simpl. rewrite <- app_assoc. split; reflexivity.
  - intros os1 os2 e os3 H1 H2 H3. rewrite H1, H2, H3. simpl. rewrite <- !app_assoc.
    split; reflexivity.
  - intros os1 os2 os3 H1 H2 H3. rewrite H1, H2, H3. simpl. rewrite <- !app_assoc.
    split; reflexivity.
Qed.

End Engine.

(** ** The request handler *)


(** Configuration processing that reports no error leaves no repository
    without a name. *)
Lemma processConfig_names (raw config : serverConfig) :
  processConfig raw = (config, None) ->
  forall x, In x (Repositories config) -> Name x <> "".
Proof.
  intros H x Hin. apply processConfig_spec in H. destruct H as (HR & _ & Hall).
  rewrite HR in Hin. apply in_map_iff in Hin. destruct Hin as (x0 & <- & Hin0).
  destruct (Hall x0 Hin0) as [Hn _].
  unfold inherited. destruct (GlobalTokens raw); exact Hn.
Qed.

(** A repository that [getRepository] resolves and that lists the token makes
    the token pass the coarse check. *)
Lemma resolved_token_exists (config : serverConfig) (name key : string)
      (repo : repositoryConfig) :
  getRepository config name = (Some repo, None) ->
  validToken repo key = true ->
  tokenExists config key = true.
Proof.
  intros Hget Hvalid. apply tokenExists_true. exists repo. split; [|exact Hvalid].
  destruct (getRepository_cases config name) as [(x & Hx & Hin & _)|[Hx _]];
    rewrite Hx in Hget; [|discriminate].
  injection Hget as <-. exact Hin.
Qed.

Section Handler.

Variable World : Type.
Variable cmd_Run : Cmd -> World -> error * World.
Variable json_Decode : string -> repositoryRequest * error.

Local Notation "'answer'" := (response cmd_Run json_Decode) (at level 0).
Local Notation "'commands'" := (started cmd_Run json_Decode) (at level 0).

(** The end of the handler's accepting path, followed by the completion of
    the response: status 200, nothing in the body, and the commands of one
    synchronisation of [repo]. *)
Lemma accepted_tail (repo : repositoryConfig) (os : World) :
  let tail :=
    bind (bind (slog_Info World (Name repo)
                  [("local", Local repo); ("remote", Remote repo); ("branch", Branch repo)])
               (fun _ => bind (syncRepository cmd_Run repo) (fun _ => ret tt)))
         (fun _ => finishRequest World) in
  w (snd (tail (fresh os))) = mkResponseWriter true StatusOK ""
  /\ exists k, 1 <= k <= 3
       /\ invocations (snd (tail (fresh os)))
          = firstn k [fetchCmd repo; resetCmd repo; cleanCmd repo].
Proof.
  cbv zeta.
  unfold bind, slog_Info, slog_emit, fresh, ret, finishRequest, WriteHeader.
  cbn [world invocations logged w app].
  match goal with
  | |- context [syncRepository cmd_Run repo ?s] =>
      destruct (syncRepository_frame World cmd_Run repo s) as ((k & Hk & Hinv) & _ & Hw);
      destruct (syncRepository cmd_Run repo s) as [err s'] eqn:Es
  end.
  cbn [snd invocations w app] in Hinv, Hw.
  rewrite Hw. cbn.
  split; [reflexivity|]. exists k. split; [exact Hk | exact Hinv].
Qed.

(** C5: a request whose token is empty (header missing or empty) or found in
    no repository's token list is answered 401 [Unauthorized], whatever its
    method and body, and starts no command. *)
Theorem unknown_token_unauthorized (config : serverConfig) (r : Request) (os : World) :
  requestToken r = "" \/ tokenExists config (requestToken r) = false ->
  answer config r os = mkResponseWriter true StatusUnauthorized ("Unauthorized" ++ LF)
  /\ commands config r os = [].
Proof.
  open_handler r. intros [H|H].
  - rewrite H. split; reflexivity.
  - destruct (String.eqb tok ""); [split; reflexivity|].
    rewrite H. split; reflexivity.
Qed.

(** C10: without repositories [tokenExists] is false for every token, the
    global ones included, every request is answered 401 and starts no
    command; configuration processing reports no error on such a
    configuration and leaves it without repositories. *)
Theorem no_repositories_all_unauthorized (config : serverConfig) :
  Repositories config = [] ->
  (forall t, tokenExists config t = false)
  /\ (forall r os, status (answer config r os) = StatusUnauthorized
                   /\ commands config r os = [])
  /\ snd (processConfig config) = None
  /\ Repositories (fst (processConfig config)) = []
  /\ forall r os, status (answer (fst (processConfig config)) r os) = StatusUnauthorized
                  /\ commands (fst (processConfig config)) r os = [].
Proof.
  intros Hempty.
  assert (Hnone : forall c, Repositories c = [] -> forall t, tokenExists c t = false)
    by (intros c Hc t; unfold tokenExists; rewrite Hc; reflexivity).
  assert (H401 : forall c, Repositories c = [] ->
            forall r os, status (answer c r os) = StatusUnauthorized /\ commands c r os = []).
  { intros c Hc r os. open_handler r.
    destruct (String.eqb tok ""); [split; reflexivity|].
    rewrite (Hnone c Hc tok). split; reflexivity. }
  assert (Hp : snd (processConfig config) = None
               /\ Repositories (fst (processConfig config)) = []).
  { unfold processConfig. cbv zeta.
    destruct (String.eqb (Address config) ""); simpl Port;
      destruct (String.eqb (Port config) ""); simpl Repositories;
      rewrite Hempty; simpl; (split; [reflexivity | exact Hempty]). }
  destruct Hp as [Hp Hr].
  split; [apply Hnone; exact Hempty|].
  split; [apply H401; exact Hempty|].
  split; [exact Hp|].
  split; [exact Hr|].
  apply H401; exact Hr.
Qed.

(** C6: a GET request carrying a token that some repository lists is answered
    200 with the body [OK] and a line feed, starts no command and leaves the
    world behind the commands as it was. *)
Theorem get_probe_ok (config : serverConfig) (r : Request) (os : World) :
  requestToken r <> "" ->
  tokenExists config (requestToken r) = true ->
  Method r = "GET" ->
  answer config r os = mkResponseWriter true StatusOK ("OK" ++ LF)
  /\ commands config r os = []
  /\ world (snd (serve cmd_Run json_Decode config r (fresh os))) = os.
Proof.
  open_handler r. intros Hne Hex Hget.
  settle_eqb tok "".
  rewrite Hex, Hget. repeat split.
Qed.

(** C3: a POST request with a non-empty token, a body that decodes, a
    non-empty name that [getRepository] resolves and a token the resolved
    repository lists is answered with status 200 (and nothing in the body),
    whatever the commands of the synchronisation answer; the synchronisation
    of that repository has been started (a non-empty prefix of fetch, reset,
    clean). *)
Theorem authorized_post_answers_200 (config : serverConfig) (r : Request) (os : World)
        (repReq : repositoryRequest) (repo : repositoryConfig) :
  requestToken r <> "" ->
  Method r = "POST" ->
  json_Decode (Body r) = (repReq, None) ->
  reqName repReq <> "" ->
  getRepository config (reqName repReq) = (Some repo, None) ->
  validToken repo (requestToken r) = true ->
  status (answer config r os) = StatusOK
  /\ body (answer config r os) = ""
  /\ exists k, 1 <= k <= 3
       /\ commands config r os = firstn k [fetchCmd repo; resetCmd repo; cleanCmd repo].
Proof.
  intros Hne Hpost Hdec Hname Hget Hvalid.
  pose proof (resolved_token_exists _ _ _ _ Hget Hvalid) as Hex.
  open_handler r.
  settle_eqb tok "".
  rewrite Hex, Hpost, Hdec. cbn [negb String.eqb Ascii.eqb Bool.eqb].
  settle_eqb (reqName repReq) "".
  rewrite Hget, Hvalid. cbn [negb].
  destruct (accepted_tail repo os) as [Hw Hk]. cbv zeta in Hw, Hk.
  rewrite Hw. split; [reflexivity|]. split; [reflexivity | exact Hk].
Qed.

(** C4: over a processed configuration, when repository [A] is the only one
    that lists the token, a POST whose body names a repository that
    [getRepository] resolves to some [B] other than [A] is answered 401
    [Unauthorized] and starts no command, although the token passes
    [tokenExists]. *)
Theorem scoped_token_refused_elsewhere (raw config : serverConfig) (r : Request) (os : World)
        (A B : repositoryConfig) (repReq : repositoryRequest) :
  processConfig raw = (config, None) ->
  In A (Repositories config) ->
  validToken A (requestToken r) = true ->
  (forall x, In x (Repositories config) -> validToken x (requestToken r) = true -> x = A) ->
  Method r = "POST" ->
  json_Decode (Body r) = (repReq, None) ->
  getRepository config (reqName repReq) = (Some B, None) ->
  B <> A ->
  tokenExists config (requestToken r) = true
  /\ answer config r os = mkResponseWriter true StatusUnauthorized ("Unauthorized" ++ LF)
  /\ commands config r os = [].
Proof.
  intros Hproc HA Hvalid Honly Hpost Hdec Hget Hdiff.
  assert (Hex : tokenExists config (requestToken r) = true)
    by (apply tokenExists_true; exists A; auto).
  assert (HB : In B (Repositories config) /\ Name B = reqName repReq).
  { destruct (getRepository_cases config (reqName repReq)) as [(x & Hx & Hin & Hn)|[Hx _]];
      rewrite Hx in Hget; [|discriminate].
    injection Hget as <-. auto. }
  destruct HB as [HBin HBname].
  assert (Hname : reqName repReq <> "")
    by (rewrite <- HBname; exact (processConfig_names _ _ Hproc B HBin)).
  assert (Hno : validToken B (requestToken r) = false).
  { destruct (validToken B (requestToken r)) eqn:E; [|reflexivity].
    exfalso. apply Hdiff. apply Honly; assumption. }
  split; [exact Hex|].
  open_handler r.
  destruct (String.eqb tok ""); [split; reflexivity|].
  rewrite Hex, Hpost, Hdec. cbn [negb String.eqb Ascii.eqb Bool.eqb].
  settle_eqb (reqName repReq) "".
  rewrite Hget, Hno. split; reflexivity.
Qed.

(** C7: with a non-empty token that some repository lists, a method other
    than GET and POST is answered 405; a POST whose body does not decode is
    answered 400; a POST whose decoded name is empty is answered 400; a POST
    whose name no configured repository bears is answered 404; none of the
    four starts a command. *)
Theorem request_shape_errors (config : serverConfig) (r : Request) (os : World) :
  requestToken r <> "" ->
  tokenExists config (requestToken r) = true ->
  (Method r <> "GET" -> Method r <> "POST" ->
     answer config r os
     = mkResponseWriter true StatusMethodNotAllowed ("GET or POST only" ++ LF)
     /\ commands config r os = [])
  /\ (forall q e, Method r = "POST" -> json_Decode (Body r) = (q, Some e) ->
     answer config r os
     = mkResponseWriter true StatusBadRequest
         ("Bad Request: Failed to unmarshal json body: " ++ e ++ LF)
     /\ commands config r os = [])
  /\ (forall q, Method r = "POST" -> json_Decode (Body r) = (q, None) -> reqName q = "" ->
     answer config r os
     = mkResponseWriter true StatusBadRequest
         ("Bad Request: Repository name not provided" ++ LF)
     /\ commands config r os = [])
  /\ (forall q, Method r = "POST" -> json_Decode (Body r) = (q, None) -> reqName q <> "" ->
     (forall x, In x (Repositories config) -> Name x <> reqName q) ->
     answer config r os
     = mkResponseWriter true StatusNotFound
         ("Bad Request: Repository not found: "
          ++ "failed to find configured repository with name: " ++ reqName q ++ LF)
     /\ commands config r os = []).
Proof.
  intros Hne Hex. open_handler r.
  settle_eqb tok "".
  rewrite Hex. cbn [negb].
  split; [|split; [|split]].
  - intros Hget Hpost.
    settle_eqb (Method r) "GET". settle_eqb (Method r) "POST".
    split; reflexivity.
  - intros q e Hpost Hdec. rewrite Hpost, Hdec. split; reflexivity.
  - intros q Hpost Hdec Hempty. rewrite Hpost, Hdec. cbn [negb String.eqb Ascii.eqb Bool.eqb].
    rewrite Hempty. split; reflexivity.
  - intros q Hpost Hdec Hname Hunknown. rewrite Hpost, Hdec.
    cbn [negb String.eqb Ascii.eqb Bool.eqb].
    settle_eqb (reqName q) "".
    destruct (getRepository_cases config (reqName q)) as [(x & Hx & Hin & Hn)|[Hx _]].
    + exfalso. exact (Hunknown x Hin Hn).
    + rewrite Hx. split; reflexivity.
Qed.


End Handler.

(** ** The theorems at concrete deployments *)

(** C2 at the README's first repository: one run per failing step and one
    where every command succeeds. *)
Lemma syncRepository_stops_at_first_failure_witness :
  (fst (syncRepository (Examples.failsAt "fetch") Examples.moduleLogger (fresh tt))
   = Some "failed to sync repository: failed to fetch origin: exit status 1"
   /\ invocations (snd (syncRepository (Examples.failsAt "fetch") Examples.moduleLogger (fresh tt)))
      = [] ++ [fetchCmd Examples.moduleLogger])
  /\ (fst (syncRepository (Examples.failsAt "reset") Examples.moduleLogger (fresh tt))
      = Some "failed to sync repository: failed to reset origin: exit status 1"
      /\ invocations (snd (syncRepository (Examples.failsAt "reset") Examples.moduleLogger (fresh tt)))
         = [] ++ [fetchCmd Examples.moduleLogger; resetCmd Examples.moduleLogger])
  /\ (fst (syncRepository (Examples.failsAt "clean") Examples.moduleLogger (fresh tt))
      = Some "failed to clean repository: failed to clean untracked files: exit status 1"
      /\ invocations (snd (syncRepository (Examples.failsAt "clean") Examples.moduleLogger (fresh tt)))
         = [] ++ [fetchCmd Examples.moduleLogger; resetCmd Examples.moduleLogger;
                  cleanCmd Examples.moduleLogger])
  /\ (fst (syncRepository Examples.runsClean Examples.moduleLogger (fresh tt)) = None
      /\ invocations (snd (syncRepository Examples.runsClean Examples.moduleLogger (fresh tt)))
         = [] ++ [fetchCmd Examples.moduleLogger; resetCmd Examples.moduleLogger;
                  cleanCmd Examples.moduleLogger]).
Proof.
  split; [|split; [|split]].
  - apply (proj1 (syncRepository_stops_at_first_failure unit (Examples.failsAt "fetch")
                    Examples.moduleLogger (fresh tt)) "exit status 1" tt).
    reflexivity.
  - apply (proj1 (proj2 (syncRepository_stops_at_first_failure unit (Examples.failsAt "reset")
                           Examples.moduleLogger (fresh tt))) tt "exit status 1" tt);
      reflexivity.
  - apply (proj1 (proj2 (proj2 (syncRepository_stops_at_first_failure unit
                                  (Examples.failsAt "clean")
                                  Examples.moduleLogger (fresh tt)))) tt tt "exit status 1" tt);
      reflexivity.
  - apply (proj2 (proj2 (proj2 (syncRepository_stops_at_first_failure unit Examples.runsClean
                                  Examples.moduleLogger (fresh tt)))) tt tt tt);
      reflexivity.
Defined.

(** C3 at the README's deployment, with a fetch that fails. *)
Lemma authorized_post_answers_200_witness :
  status (response (Examples.failsAt "fetch") Examples.decodeName readmeProcessed
            (Examples.post "batman" "module-logger") tt) = StatusOK
  /\ body (response (Examples.failsAt "fetch") Examples.decodeName readmeProcessed
             (Examples.post "batman" "module-logger") tt) = ""
  /\ exists k, 1 <= k <= 3
       /\ started (Examples.failsAt "fetch") Examples.decodeName readmeProcessed
            (Examples.post "batman" "module-logger") tt
          = firstn k [fetchCmd moduleLoggerProcessed; resetCmd moduleLoggerProcessed;
                      cleanCmd moduleLoggerProcessed].
Proof.
  apply (authorized_post_answers_200 unit (Examples.failsAt "fetch") Examples.decodeName
           readmeProcessed (Examples.post "batman" "module-logger") tt
           (mkRepositoryRequest "module-logger") moduleLoggerProcessed).
  - vm_compute. discriminate.
  - reflexivity.
  - reflexivity.
  - simpl. discriminate.
  - reflexivity.
  - reflexivity.
Defined.

(** C4 at the README's deployment: [batman] is listed by module-logger only
    and the request names neovim. *)
Lemma scoped_token_refused_elsewhere_witness :
  tokenExists readmeProcessed (requestToken (Examples.post "batman" "neovim")) = true
  /\ response Examples.runsClean Examples.decodeName readmeProcessed
       (Examples.post "batman" "neovim") tt
     = mkResponseWriter true StatusUnauthorized ("Unauthorized" ++ LF)
  /\ started Examples.runsClean Examples.decodeName readmeProcessed
       (Examples.post "batman" "neovim") tt = [].
Proof.
  apply (scoped_token_refused_elsewhere unit Examples.runsClean Examples.decodeName
           Examples.readme readmeProcessed (Examples.post "batman" "neovim") tt
           moduleLoggerProcessed neovimProcessed (mkRepositoryRequest "neovim")).
  - reflexivity.
  - simpl. auto.
  - reflexivity.
  - intros x [<-|[<-|[]]]; [reflexivity | vm_compute; discriminate].
  - reflexivity.
  - reflexivity.
  - reflexivity.
  - discriminate.
Defined.

(** C5 at the README's deployment: a DELETE carrying [joker], which no
    repository lists. *)
Lemma unknown_token_unauthorized_witness :
  response Examples.runsClean Examples.decodeName readmeProcessed
    (mkRequest "DELETE" (Examples.tokenHeader "joker") "") tt
  = mkResponseWriter true StatusUnauthorized ("Unauthorized" ++ LF)
  /\ started Examples.runsClean Examples.decodeName readmeProcessed
       (mkRequest "DELETE" (Examples.tokenHeader "joker") "") tt = [].
Proof.
  apply (unknown_token_unauthorized unit Examples.runsClean Examples.decodeName
           readmeProcessed (mkRequest "DELETE" (Examples.tokenHeader "joker") "") tt).
  right. reflexivity.
Defined.

(** C6 at the README's deployment: a GET carrying the global token. *)
Lemma get_probe_ok_witness :
  response Examples.runsClean Examples.decodeName readmeProcessed (Examples.get "zelda") tt
  = mkResponseWriter true StatusOK ("OK" ++ LF)
  /\ started Examples.runsClean Examples.decodeName readmeProcessed (Examples.get "zelda") tt
     = []
  /\ world (snd (serve Examples.runsClean Examples.decodeName readmeProcessed
                   (Examples.get "zelda") (fresh tt))) = tt.
Proof.
  apply (get_probe_ok unit Examples.runsClean Examples.decodeName readmeProcessed
           (Examples.get "zelda") tt).
  - vm_compute. discriminate.
  - reflexivity.
  - reflexivity.
Defined.

(** C7 at the README's deployment: a PUT, a POST with a body that is not
    JSON, a POST with the empty object and a POST naming an unknown
    repository, all carrying [batman]. *)
Lemma request_shape_errors_witness :
  status (response Examples.runsClean Examples.decodeName readmeProcessed
            (mkRequest "PUT" (Examples.tokenHeader "batman") "") tt) = 405
  /\ status (response Examples.runsClean Examples.decodeName readmeProcessed
               (mkRequest "POST" (Examples.tokenHeader "batman") "name=neovim") tt) = 400
  /\ status (response Examples.runsClean Examples.decodeName readmeProcessed
               (mkRequest "POST" (Examples.tokenHeader "batman") "{}") tt) = 400
  /\ status (response Examples.runsClean Examples.decodeName readmeProcessed
               (Examples.post "batman" "emacs") tt) = 404.
Proof.
  assert (Htok : forall m b,
             requestToken (mkRequest m (Examples.tokenHeader "batman") b) <> "")
    by (intros m b; vm_compute; discriminate).
  assert (Hex : forall m b,
             tokenExists readmeProcessed
               (requestToken (mkRequest m (Examples.tokenHeader "batman") b)) = true)
    by (intros m b; reflexivity).
  split; [|split; [|split]].
  - destruct (proj1 (request_shape_errors unit Examples.runsClean Examples.decodeName
                       readmeProcessed (mkRequest "PUT" (Examples.tokenHeader "batman") "") tt
                       (Htok _ _) (Hex _ _))) as [H _];
      [discriminate | discriminate | rewrite H; reflexivity].
  - destruct (proj1 (proj2 (request_shape_errors unit Examples.runsClean Examples.decodeName
                       readmeProcessed
                       (mkRequest "POST" (Examples.tokenHeader "batman") "name=neovim") tt
                       (Htok _ _) (Hex _ _)))
                (mkRepositoryRequest "") "invalid character") as [H _];
      [reflexivity | reflexivity | rewrite H; reflexivity].
  - destruct (proj1 (proj2 (proj2 (request_shape_errors unit Examples.runsClean
                       Examples.decodeName readmeProcessed
                       (mkRequest "POST" (Examples.tokenHeader "batman") "{}") tt
                       (Htok _ _) (Hex _ _))))
                (mkRepositoryRequest "")) as [H _];
      [reflexivity | reflexivity | reflexivity | rewrite H; reflexivity].
  - destruct (proj2 (proj2 (proj2 (request_shape_errors unit Examples.runsClean
                       Examples.decodeName readmeProcessed
                       (Examples.post "batman" "emacs") tt
                       (Htok _ _) (Hex _ _))))
                (mkRepositoryRequest "emacs")) as [H _];
      [reflexivity | reflexivity | discriminate
       | intros x [<-|[<-|[]]]; discriminate | rewrite H; reflexivity].
Defined.

(** C10 at a deployment that lists a global token and no repository. *)
Lemma no_repositories_all_unauthorized_witness :
  tokenExists Examples.noRepositories "zelda" = false
  /\ status (response Examples.runsClean Examples.decodeName
               (fst (processConfig Examples.noRepositories)) (Examples.get "zelda") tt)
     = StatusUnauthorized.
Proof.
  destruct (no_repositories_all_unauthorized unit Examples.runsClean Examples.decodeName
              Examples.noRepositories eq_refl) as (H1 & _ & _ & _ & H5).
  split; [apply H1 | apply H5].
Defined.


(** * Further properties of the code *)

(** ** Configuration processing: validation and what it stores *)

Lemma assign_Tokens_map {B : Type} (f : repositoryConfig -> B) (i : nat) (ts : list string)
      (rs : list repositoryConfig) :
  (forall ts' r, f (set_Tokens ts' r) = f r) ->
  map f (assign_Tokens i ts rs) = map f rs.
Proof.
  intros Hf. revert i. induction rs as [|r rest IH]; intros [|j]; simpl; auto.
  - now rewrite Hf.
  - now rewrite IH.
Qed.

Lemma rangeRepositories_keeps {B : Type} (f : repositoryConfig -> B)
      (todo : list repositoryConfig) (i : nat) (c : serverConfig) :
  (forall ts' r, f (set_Tokens ts' r) = f r) ->
  map f (Repositories (fst (rangeRepositories i todo c))) = map f (Repositories c)
  /\ GlobalTokens (fst (rangeRepositories i todo c)) = GlobalTokens c.
Proof.
  intros Hf. revert i c. induction todo as [|r rest IH]; intros i c; [split; reflexivity|].
  cbn [rangeRepositories].
  destruct (String.eqb (Name r) ""); [split; reflexivity|].
  destruct (String.eqb (Local r) ""); [split; reflexivity|].
  destruct (String.eqb (Remote r) ""); [split; reflexivity|].
  cbv zeta. rewrite rangeGlobalTokens_spec.
  destruct (GlobalTokens c) as [|g gs] eqn:Eg;
    match goal with
    | |- context [rangeRepositories (S i) rest ?x] => destruct (IH (S i) x) as [HR HG]
    end;
    rewrite HR, HG.
  - split; [reflexivity | exact Eg].
  - simpl. rewrite assign_Tokens_map by exact Hf. split; [reflexivity | exact Eg].
Qed.

Lemma processConfig_keeps {B : Type} (f : repositoryConfig -> B) (c : serverConfig) :
  (forall ts' r, f (set_Tokens ts' r) = f r) ->
  map f (Repositories (fst (processConfig c))) = map f (Repositories c)
  /\ GlobalTokens (fst (processConfig c)) = GlobalTokens c.
Proof.
  intros Hf. unfold processConfig. cbv zeta.
  destruct (String.eqb (Address c) ""); simpl Port;
    destruct (String.eqb (Port c) "");
    match goal with
    | |- context [rangeRepositories 0 ?t ?x] =>
        destruct (rangeRepositories_keeps f t 0 x Hf) as [HR HG]
    end;
    rewrite HR, HG; split; reflexivity.
Qed.

Lemma rangeRepositories_complete (todo : list repositoryConfig) (i : nat) (c : serverConfig) :
  (forall r, In r todo -> complete r) ->
  snd (rangeRepositories i todo c) = None.
Proof.
  revert i c. induction todo as [|r rest IH]; intros i c Hall; [reflexivity|].
  cbn [rangeRepositories].
  destruct (Hall r (or_introl eq_refl)) as (Hn & Hl & Hr).
  apply String.eqb_neq in Hn, Hl, Hr. rewrite Hn, Hl, Hr.
  apply IH. intros x Hx. apply Hall. right. exact Hx.
Qed.

Lemma processConfig_complete (c : serverConfig) :
  (forall r, In r (Repositories c) -> complete r) ->
  snd (processConfig c) = None.
Proof.
  intros Hall. unfold processConfig. cbv zeta.
  apply rangeRepositories_complete.
  destruct (String.eqb (Address c) ""); simpl Port;
    destruct (String.eqb (Port c) ""); exact Hall.
Qed.

Lemma incomplete_checks (r : repositoryConfig) :
  ~ complete r ->
  (if String.eqb (Name r) "" then true
   else if String.eqb (Local r) "" then true
   else String.eqb (Remote r) "") = true.
Proof.
  intros H.
  destruct (String.eqb_spec (Name r) "") as [|Hn]; [reflexivity|].
  destruct (String.eqb_spec (Local r) "") as [|Hl]; [reflexivity|].
  destruct (String.eqb_spec (Remote r) "") as [|Hr]; [reflexivity|].
  exfalso. apply H. repeat split; assumption.
Qed.

Lemma set_Repositories_twice (a b : list repositoryConfig) (c : serverConfig) :
  set_Repositories a (set_Repositories b c) = set_Repositories a c.
Proof. reflexivity. Qed.

Lemma set_Repositories_same (c : serverConfig) :
  set_Repositories (Repositories c) c = c.
Proof. destruct c; reflexivity. Qed.

Lemma inherited_nil (rs : list repositoryConfig) : map (inherited []) rs = rs.
Proof. induction rs as [|r rest IH]; simpl; [reflexivity | now rewrite IH]. Qed.

(** The loop over the repositories, met by a first repository that fails the
    validation: the repositories before it hold their inherited tokens, it
    and the ones behind it are untouched, and its missing value is reported. *)
Lemma rangeRepositories_first_incomplete (good : list repositoryConfig) :
  forall (done : list repositoryConfig) (c : serverConfig) (bad : repositoryConfig)
         (rest : list repositoryConfig),
    Repositories c = done ++ good ++ bad :: rest ->
    (forall r, In r good -> complete r) ->
    ~ complete bad ->
    rangeRepositories (List.length done) (good ++ bad :: rest) c
    = (set_Repositories (done ++ map (inherited (GlobalTokens c)) good ++ bad :: rest) c,
       Some (missingValue bad)).
Proof.
  induction good as [|g good IH]; intros done c bad rest Hc Hall Hbad.
  - simpl app. cbn [rangeRepositories map]. simpl app in Hc.
    rewrite <- Hc, set_Repositories_same.
    pose proof (incomplete_checks bad Hbad) as Hchk. unfold missingValue.
    destruct (String.eqb (Name bad) ""); [reflexivity|].
    destruct (String.eqb (Local bad) ""); [reflexivity|].
    rewrite Hchk. reflexivity.
  - simpl app. cbn [rangeRepositories].
    destruct (Hall g (or_introl eq_refl)) as (Hn & Hl & Hr).
    apply String.eqb_neq in Hn, Hl, Hr. rewrite Hn, Hl, Hr.
    cbv zeta. rewrite rangeGlobalTokens_spec.
    assert (Ht : Tokens (if String.eqb (Branch g) "" then set_Branch "main" g else g) = Tokens g)
      by (destruct (String.eqb (Branch g) ""); reflexivity).
    rewrite Ht. clear Ht.
    assert (Hall' : forall r, In r good -> complete r)
      by (intros r Hr'; apply Hall; right; exact Hr').
    destruct (GlobalTokens c) as [|t ts] eqn:Eg.
    + replace (S (List.length done)) with (List.length (done ++ [g]))
        by (rewrite length_app; simpl; lia).
      rewrite (IH (done ++ [g]) c bad rest); auto.
      * rewrite Eg, !inherited_nil. simpl map. rewrite <- app_assoc. reflexivity.
      * rewrite Hc, <- app_assoc. reflexivity.
    + set (g' := set_Tokens (Tokens g ++ [last ts t]) g).
      replace (S (List.length done)) with (List.length (done ++ [g']))
        by (rewrite length_app; simpl; lia).
      rewrite (IH (done ++ [g']) _ bad rest); auto.
      * simpl GlobalTokens. rewrite Eg, set_Repositories_twice.
        simpl map. rewrite <- app_assoc. reflexivity.
      * simpl Repositories. simpl app in Hc.
        rewrite Hc, assign_Tokens_middle, <- app_assoc. reflexivity.
Qed.

(** X4: [processConfig] never changes the name, the path, the remote or the
    branch of a repository, nor the global tokens, whether it reports an
    error or not; in particular the default branch [main] is never stored. *)
Theorem processConfig_preserves_repository_fields (c : serverConfig) :
  map Name (Repositories (fst (processConfig c))) = map Name (Repositories c)
  /\ map Local (Repositories (fst (processConfig c))) = map Local (Repositories c)
  /\ map Remote (Repositories (fst (processConfig c))) = map Remote (Repositories c)
  /\ map Branch (Repositories (fst (processConfig c))) = map Branch (Repositories c)
  /\ GlobalTokens (fst (processConfig c)) = GlobalTokens c.
Proof.
  repeat split; try (apply processConfig_keeps; reflexivity).
  apply (processConfig_keeps Name); reflexivity.
Qed.

(** X1: [processConfig] reports no error exactly when every repository has a
    name, a local path and a remote. *)
Theorem processConfig_ok_iff_complete (c : serverConfig) :
  snd (processConfig c) = None
  <-> forall r, In r (Repositories c) -> complete r.
Proof.
  split.
  - intros H r Hin.
    destruct (processConfig c) as [c' e] eqn:E. simpl in H. subst e.
    apply processConfig_spec in E. destruct E as (_ & _ & Hall). exact (Hall r Hin).
  - apply processConfig_complete.
Qed.

(** X2: when [bad] is the first repository that lacks a name, a path or a
    remote, [processConfig] reports the first value missing from it (name
    before path before remote); the repositories before it have received
    their inherited tokens already, [bad] and the ones behind it are as they
    were. *)
Theorem processConfig_first_incomplete (c : serverConfig) (good rest : list repositoryConfig)
        (bad : repositoryConfig) :
  Repositories c = good ++ bad :: rest ->
  (forall r, In r good -> complete r) ->
  ~ complete bad ->
  snd (processConfig c) = Some (missingValue bad)
  /\ Repositories (fst (processConfig c))
     = map (inherited (GlobalTokens c)) good ++ bad :: rest.
Proof.
  intros Hc Hall Hbad. unfold processConfig. cbv zeta.
  set (c1 := if String.eqb (Address c) "" then set_Address "0.0.0.0" c else c).
  set (c2 := if String.eqb (Port c1) "" then set_Port "8654" c1 else c1).
  assert (HR : Repositories c2 = Repositories c)
    by (unfold c2, c1; destruct (String.eqb (Address c) ""); simpl Port;
        destruct (String.eqb (Port c) ""); reflexivity).
  assert (HG : GlobalTokens c2 = GlobalTokens c)
    by (unfold c2, c1; destruct (String.eqb (Address c) ""); simpl Port;
        destruct (String.eqb (Port c) ""); reflexivity).
  pose proof (rangeRepositories_first_incomplete good [] c2 bad rest) as H.
  cbn [List.length app] in H.
  rewrite HR, Hc, H; [|rewrite HR; exact Hc | exact Hall | exact Hbad].
  rewrite HG. split; reflexivity.
Qed.

Lemma Tokens_inherited (globals : list string) (r : repositoryConfig) :
  Tokens (inherited globals r) = inheritedTokens globals (Tokens r).
Proof. destruct globals; reflexivity. Qed.

(** X3: when [processConfig] reports no error, every repository holds its own
    tokens followed by one more, the last global token; without global tokens
    the token lists are unchanged. *)
Theorem processConfig_stores_last_global (c c' : serverConfig) :
  processConfig c = (c', None) ->
  map Tokens (Repositories c')
  = map (fun r => inheritedTokens (GlobalTokens c) (Tokens r)) (Repositories c).
Proof.
  intros H. apply processConfig_spec in H. destruct H as (HR & _ & _).
  rewrite HR, map_map. apply map_ext. intros r. apply Tokens_inherited.
Qed.

Lemma findRepository_inherited (globals : list string) (rs : list repositoryConfig)
      (name : string) :
  findRepository (map (inherited globals) rs) name
  = option_map (inherited globals) (findRepository rs name).
Proof.
  induction rs as [|r rest IH]; [reflexivity|].
  simpl. replace (Name (inherited globals r)) with (Name r) by (destruct globals; reflexivity).
  destruct (String.eqb (Name r) name); [reflexivity | exact IH].
Qed.

Lemma anyRepositoryContains_inherited (g : string) (gs : list string)
      (rs : list repositoryConfig) (t : string) :
  anyRepositoryContains (map (inherited (g :: gs)) rs) t
  = anyRepositoryContains rs t
    || match rs with [] => false | _ :: _ => String.eqb (last gs g) t end.
Proof.
  induction rs as [|r rest IH]; [reflexivity|].
  cbn [map anyRepositoryContains]. rewrite Tokens_inherited. cbn [inheritedTokens].
  change (Tokens r ++ [last gs g]) with (append (Tokens r) (last gs g)).
  rewrite slices_Contains_append, IH.
  destruct (slices_Contains (Tokens r) t); [reflexivity|].
  destruct (String.eqb (last gs g) t); simpl.
  - rewrite orb_true_r. reflexivity.
  - destruct rest; simpl; rewrite ?orb_false_r; reflexivity.
Qed.

(** X5: looking a name up after [processConfig] finds the repository that the
    raw configuration has under that name, with its inherited tokens; a name
    that was unknown stays unknown, with the same error. *)
Theorem getRepository_after_processConfig (c c' : serverConfig) (name : string) :
  processConfig c = (c', None) ->
  fst (getRepository c' name)
  = option_map (inherited (GlobalTokens c)) (fst (getRepository c name))
  /\ snd (getRepository c' name) = snd (getRepository c name).
Proof.
  intros H. apply processConfig_spec in H. destruct H as (HR & _ & _).
  unfold getRepository. rewrite HR, findRepository_inherited.
  destruct (findRepository (Repositories c) name); split; reflexivity.
Qed.

(** X6: after [processConfig], the tokens that pass [tokenExists] are the
    tokens some repository listed itself and, when there is at least one
    repository, the last global token; no other global token passes by
    being global. *)
Theorem tokenExists_after_processConfig (c c' : serverConfig) (t : string) :
  processConfig c = (c', None) ->
  tokenExists c' t = true
  <-> tokenExists c t = true
      \/ (Repositories c <> []
          /\ exists g gs, GlobalTokens c = g :: gs /\ t = last gs g).
Proof.
  intros H. apply processConfig_spec in H. destruct H as (HR & _ & _).
  unfold tokenExists. rewrite HR.
  destruct (GlobalTokens c) as [|g gs].
  - rewrite inherited_nil. split; [auto|].
    intros [Ht|(_ & g & gs & Hg & _)]; [exact Ht | discriminate].
  - rewrite anyRepositoryContains_inherited, orb_true_iff. split.
    + intros [Ht|Hl]; [left; exact Ht|]. right.
      destruct (Repositories c) as [|r rest]; [discriminate|].
      split; [discriminate|]. exists g, gs. split; [reflexivity|].
      symmetry. apply String.eqb_eq. exact Hl.
    + intros [Ht|(Hne & g0 & gs0 & Hg & Hl)]; [left; exact Ht|]. right.
      injection Hg as <- <-.
      destruct (Repositories c) as [|r rest]; [contradiction|].
      apply String.eqb_eq. symmetry. exact Hl.
Qed.

(** X7: processing a processed configuration again reports no error and
    appends the last global token a second time to every repository; the
    answers of [tokenExists] are the same as after the first processing. *)
Theorem processConfig_again (c c' : serverConfig) :
  processConfig c = (c', None) ->
  exists c'',
    processConfig c' = (c'', None)
    /\ map Tokens (Repositories c'')
       = map (fun r => inheritedTokens (GlobalTokens c)
                         (inheritedTokens (GlobalTokens c) (Tokens r)))
             (Repositories c)
    /\ forall t, tokenExists c'' t = tokenExists c' t.
Proof.
  intros H. apply processConfig_spec in H. destruct H as (HR & HG & Hall).
  assert (Hok : snd (processConfig c') = None).
  { apply processConfig_complete. intros r Hin. rewrite HR in Hin.
    apply in_map_iff in Hin. destruct Hin as (r0 & <- & Hin0).
    destruct (Hall r0 Hin0) as (Hn & Hl & Hr).
    unfold complete, inherited. destruct (GlobalTokens c); simpl; auto. }
  destruct (processConfig c') as [c'' e] eqn:E. simpl in Hok. subst e.
  exists c''. split; [reflexivity|].
  apply processConfig_spec in E. destruct E as (HR' & _ & _).
  rewrite HG in HR'. split.
  - rewrite HR', HR, !map_map. apply map_ext. intros r.
    rewrite !Tokens_inherited. reflexivity.
  - intros t. unfold tokenExists. rewrite HR', HR.
    destruct (GlobalTokens c) as [|g gs]; [rewrite !inherited_nil; reflexivity|].
    rewrite !anyRepositoryContains_inherited.
    destruct (Repositories c) as [|r rest]; [reflexivity|]. simpl map.
    destruct (anyRepositoryContains (r :: rest) t), (String.eqb (last gs g) t); reflexivity.
Qed.

(** ** The authorizer *)

(** X8: [getRepository] answers with the first repository of that name, also
    when a later repository bears the same name. *)
Theorem getRepository_first_match (sc : serverConfig) (before after : list repositoryConfig)
        (r : repositoryConfig) :
  Repositories sc = before ++ r :: after ->
  (forall x, In x before -> Name x <> Name r) ->
  getRepository sc (Name r) = (Some r, None).
Proof.
  intros HR Hbefore. unfold getRepository. rewrite HR. clear HR.
  induction before as [|b before IH]; simpl.
  - rewrite String.eqb_refl. reflexivity.
  - destruct (String.eqb_spec (Name b) (Name r)) as [E|_].
    + exfalso. exact (Hbefore b (or_introl eq_refl) E).
    + apply IH. intros x Hx. apply Hbefore. right. exact Hx.
Qed.

(** X9: [getRepository] returns either a configured repository of the name
    asked for and no error, or no repository and the error that quotes the
    name; the error is returned exactly when no repository bears the name. *)
Theorem getRepository_result (sc : serverConfig) (name : string) :
  ((exists r, getRepository sc name = (Some r, None)
              /\ In r (Repositories sc) /\ Name r = name)
   \/ getRepository sc name
      = (None, Some ("failed to find configured repository with name: " ++ name)%string))
  /\ (snd (getRepository sc name) <> None
      <-> forall r, In r (Repositories sc) -> Name r <> name).
Proof.
  unfold getRepository.
  destruct (findRepository (Repositories sc) name) as [r|] eqn:E.
  - destruct (findRepository_In _ _ _ E) as [Hin Hn]. split.
    + left. exists r. auto.
    + simpl. split; [intros H; contradiction|].
      intros H. exfalso. exact (H r Hin Hn).
  - split; [right; reflexivity|].
    simpl. split; [intros _; apply findRepository_None; exact E | discriminate].
Qed.

(** X10: a token passes [tokenExists] exactly when some configured repository
    passes it through [validToken]; so a request that passes the check for
    its repository has passed the coarse check before. *)
Theorem tokenExists_iff_some_validToken (sc : serverConfig) (key : string) :
  tokenExists sc key = true
  <-> exists r, In r (Repositories sc) /\ validToken r key = true.
Proof.
  unfold tokenExists, validToken.
  induction (Repositories sc) as [|x rest IH]; simpl.
  - split; [discriminate | intros (r & [] & _)].
  - destruct (slices_Contains (Tokens x) key) eqn:E.
    + split; [intros _; exists x; auto | reflexivity].
    + rewrite IH. split.
      * intros (r & Hin & Hr). exists r. auto.
      * intros (r & [<-|Hin] & Hr); [congruence | exists r; auto].
Qed.

(** ** The handler: every way a request can end *)

Section Outcomes.

Variable World : Type.
Variable cmd_Run : Cmd -> World -> error * World.
Variable json_Decode : string -> repositoryRequest * error.

(** A served request ends in one of two ways.  Rejected or probed: nothing
    started, the world untouched, one warning logged, a status and a body
    written.  Accepted: an authorized POST, the synchronisation of the
    resolved repository started, one information record logged, status 200
    and no body. *)
Lemma serve_outcome (config : serverConfig) (r : Request) (os : World) :
  (exists code text msg,
      snd (serve cmd_Run json_Decode config r (fresh os))
      = mkMachine os [] [mkLogRecord LevelWarn msg (source_ip r)]
                  (mkResponseWriter true code text)
      /\ In code [StatusUnauthorized; StatusOK; StatusMethodNotAllowed;
                  StatusBadRequest; StatusNotFound])
  \/ (exists q repo k,
         requestToken r <> ""
         /\ Method r = "POST"
         /\ json_Decode (Body r) = (q, None)
         /\ reqName q <> ""
         /\ getRepository config (reqName q) = (Some repo, None)
         /\ validToken repo (requestToken r) = true
         /\ 1 <= k <= 3
         /\ invocations (snd (serve cmd_Run json_Decode config r (fresh os)))
            = firstn k [fetchCmd repo; resetCmd repo; cleanCmd repo]
         /\ logged (snd (serve cmd_Run json_Decode config r (fresh os)))
            = [mkLogRecord LevelInfo (Name repo)
                 [("local", Local repo); ("remote", Remote repo); ("branch", Branch repo)]]
         /\ w (snd (serve cmd_Run json_Decode config r (fresh os)))
            = mkResponseWriter true StatusOK "").
Proof.
  unfold serve, handler. fold (requestToken r). set (tok := requestToken r) in *.
  destruct (String.eqb_spec tok "") as [Et|Et].
  { left. do 3 eexists. split; [reflexivity | simpl; auto]. }
  destruct (tokenExists config tok) eqn:Hex; cbn [negb].
  2:{ left. do 3 eexists. split; [reflexivity | simpl; auto]. }
  destruct (String.eqb_spec (Method r) "GET") as [Eg|Eg].
  { left. do 3 eexists. split; [reflexivity | simpl; auto]. }
  destruct (String.eqb_spec (Method r) "POST") as [Ep|Ep]; cbn [negb].
  2:{ left. do 3 eexists. split; [reflexivity | simpl; auto]. }
  destruct (json_Decode (Body r)) as [q [e|]] eqn:Hdec.
  { left. do 3 eexists. split; [reflexivity | simpl; auto]. }
  destruct (String.eqb_spec (reqName q) "") as [En|En].
  { left. do 3 eexists. split; [reflexivity | simpl; auto]. }
  destruct (getRepository_cases config (reqName q)) as [(x & Hx & Hin & Hn)|[Hx _]];
    rewrite Hx.
  2:{ left. do 3 eexists. split; [reflexivity | simpl; auto 6]. }
  destruct (validToken x tok) eqn:Hv; cbn [negb].
  2:{ left. do 3 eexists. split; [reflexivity | simpl; auto]. }
  right.
  unfold bind, slog_Info, slog_emit, fresh, ret, finishRequest, WriteHeader.
  cbn [world invocations logged w app].
  match goal with
  | |- context [syncRepository cmd_Run x ?s] =>
      destruct (syncRepository_frame World cmd_Run x s) as ((k & Hk & Hinv) & Hlog & Hw);
      destruct (syncRepository cmd_Run x s) as [err s'] eqn:Es
  end.
  cbn [snd invocations logged w app] in Hinv, Hlog, Hw.
  exists q, x, k. rewrite Hw. cbn.
  repeat (split; [first [assumption | reflexivity | lia]|]). reflexivity.
Qed.

(** X11: every response carries one of the statuses 200, 400, 401, 404 and
    405, decided before the handler returns or by net/http after it. *)
Theorem handler_status_codes (config : serverConfig) (r : Request) (os : World) :
  wroteHeader (response cmd_Run json_Decode config r os) = true
  /\ In (status (response cmd_Run json_Decode config r os)) [200; 400; 401; 404; 405].
Proof.
  unfold response.
  destruct (serve_outcome config r os)
    as [(code & text & msg & Hm & Hcode)|(q & repo & k & _ & _ & _ & _ & _ & _ & _ & _ & _ & Hw)].
  - rewrite Hm. simpl w. simpl. split; [reflexivity|].
    simpl in Hcode. unfold StatusUnauthorized, StatusOK, StatusMethodNotAllowed,
      StatusBadRequest, StatusNotFound in Hcode. intuition.
  - rewrite Hw. simpl. auto.
Qed.

(** X12: a request that starts any command is a POST whose token is not
    empty, whose body decodes to a non-empty name, whose name
    [getRepository] resolves, and whose token the resolved repository lists;
    the commands started are the beginning of that repository's fetch,
    reset, clean. *)
Theorem commands_need_authorized_post (config : serverConfig) (r : Request) (os : World) :
  started cmd_Run json_Decode config r os <> [] ->
  exists q repo k,
    requestToken r <> ""
    /\ Method r = "POST"
    /\ json_Decode (Body r) = (q, None)
    /\ reqName q <> ""
    /\ getRepository config (reqName q) = (Some repo, None)
    /\ validToken repo (requestToken r) = true
    /\ 1 <= k <= 3
    /\ started cmd_Run json_Decode config r os
       = firstn k [fetchCmd repo; resetCmd repo; cleanCmd repo].
Proof.
  unfold started. intros Hne.
  destruct (serve_outcome config r os)
    as [(code & text & msg & Hm & _)
       |(q & repo & k & H1 & H2 & H3 & H4 & H5 & H6 & H7 & H8 & _)].
  - rewrite Hm in Hne. simpl in Hne. contradiction.
  - exists q, repo, k. auto 10.
Qed.

(** X14: every request leaves exactly one log record.  A request that starts
    no command leaves a warning whose only attribute is the
    [x-forwarded-for] header, and the world as it was; a request that starts
    commands leaves an information record that names the repository, its
    path, its remote and its branch. *)
Theorem one_log_record_per_request (config : serverConfig) (r : Request) (os : World) :
  (exists msg,
      logged (snd (serve cmd_Run json_Decode config r (fresh os)))
      = [mkLogRecord LevelWarn msg
           [("source_ip", Header_Get (Headers r) "x-forwarded-for")]]
      /\ started cmd_Run json_Decode config r os = []
      /\ world (snd (serve cmd_Run json_Decode config r (fresh os))) = os)
  \/ (exists repo,
         logged (snd (serve cmd_Run json_Decode config r (fresh os)))
         = [mkLogRecord LevelInfo (Name repo)
              [("local", Local repo); ("remote", Remote repo); ("branch", Branch repo)]]
         /\ In repo (Repositories config)
         /\ started cmd_Run json_Decode config r os <> []).
Proof.
  unfold started.
  destruct (serve_outcome config r os)
    as [(code & text & msg & Hm & _)
       |(q & repo & k & _ & _ & _ & _ & Hget & _ & Hk & Hinv & Hlog & _)].
  - left. exists msg. rewrite Hm. repeat split.
  - right. exists repo. split; [exact Hlog|]. split.
    + destruct (getRepository_cases config (reqName q)) as [(x & Hx & Hin & _)|[Hx _]];
        rewrite Hx in Hget; [|discriminate].
      injection Hget as <-. exact Hin.
    + rewrite Hinv. destruct k as [|k]; [lia | discriminate].
Qed.

End Outcomes.

Lemma response_answerOf (World : Type) (cmd_Run : Cmd -> World -> error * World)
      (json_Decode : string -> repositoryRequest * error)
      (config : serverConfig) (r : Request) (os : World) :
  response cmd_Run json_Decode config r os = answerOf json_Decode config r.
Proof.
  unfold response, answerOf, serve, handler. fold (requestToken r).
  destruct (String.eqb (requestToken r) ""); [reflexivity|].
  destruct (tokenExists config (requestToken r)); cbn [negb]; [|reflexivity].
  destruct (String.eqb (Method r) "GET"); [reflexivity|].
  destruct (String.eqb (Method r) "POST"); cbn [negb]; [|reflexivity].
  destruct (json_Decode (Body r)) as [q [e|]]; [reflexivity|].
  destruct (String.eqb (reqName q) ""); [reflexivity|].
  destruct (getRepository config (reqName q)) as [[x|] [e|]]; try reflexivity.
  destruct (validToken x (requestToken r)); cbn [negb]; [|reflexivity].
  destruct (accepted_tail World cmd_Run x os) as [Hw _]. cbv zeta in Hw. exact Hw.
Qed.

(** X13: the response to a request is the same whatever the commands answer
    and whatever world they act on: status and body do not report how the
    synchronisation went. *)
Theorem response_independent_of_commands
        (World1 World2 : Type)
        (run1 : Cmd -> World1 -> error * World1) (run2 : Cmd -> World2 -> error * World2)
        (json_Decode : string -> repositoryRequest * error)
        (config : serverConfig) (r : Request) (os1 : World1) (os2 : World2) :
  response run1 json_Decode config r os1 = response run2 json_Decode config r os2.
Proof. rewrite !response_answerOf. reflexivity. Qed.

(** ** The sync engine and the branch it is given *)

(** X15: a synchronisation is decided by the repository's local path and
    branch alone: two repositories that agree on both are synchronised by
    the same commands with the same result, whatever their names, remotes
    and tokens (the remote URL is never handed to a command). *)
Theorem syncRepository_path_and_branch_only
        (World : Type) (cmd_Run : Cmd -> World -> error * World)
        (r1 r2 : repositoryConfig) (s : Machine World) :
  Local r1 = Local r2 ->
  Branch r1 = Branch r2 ->
  syncRepository cmd_Run r1 s = syncRepository cmd_Run r2 s.
Proof.
  intros Hl Hb. rewrite !syncRepository_run.
  unfold fetchCmd, resetCmd, cleanCmd. rewrite Hl, Hb. reflexivity.
Qed.

(** X16: a repository configured without a branch keeps the empty branch
    through [processConfig] (the default [main] is assigned to the loop copy
    only), so its synchronisation fetches the empty ref from [origin] and
    resets to [origin/]. *)
Theorem unset_branch_not_defaulted (c c' : serverConfig) (name : string)
        (r : repositoryConfig) :
  processConfig c = (c', None) ->
  getRepository c name = (Some r, None) ->
  Branch r = "" ->
  exists r',
    getRepository c' name = (Some r', None)
    /\ Branch r' = ""
    /\ fetchCmd r' = mkCmd "git" ["fetch"; "origin"; ""] (Local r)
    /\ resetCmd r' = mkCmd "git" ["reset"; "--hard"; "origin/"] (Local r).
Proof.
  intros H Hget Hb. apply processConfig_spec in H. destruct H as (HR & _ & _).
  exists (inherited (GlobalTokens c) r).
  unfold getRepository in *. rewrite HR, findRepository_inherited.
  destruct (findRepository (Repositories c) name) as [x|]; [|discriminate].
  injection Hget as ->. simpl option_map.
  assert (HB : Branch (inherited (GlobalTokens c) r) = "")
    by (destruct (GlobalTokens c); exact Hb).
  assert (HL : Local (inherited (GlobalTokens c) r) = Local r)
    by (destruct (GlobalTokens c); reflexivity).
  unfold fetchCmd, resetCmd. rewrite HB, HL. repeat split.
Qed.

(** ** The older revision *)

Lemma V1_assign_ApiKeys_middle (done todo : list V1.repositoryConfig)
      (r : V1.repositoryConfig) (ks : list string) :
  V1.assign_ApiKeys (List.length done) ks (done ++ r :: todo)
  = done ++ V1.set_ApiKeys ks r :: todo.
Proof. induction done as [|d done IH]; simpl; [reflexivity | now rewrite IH]. Qed.

(** What the older inheritance leaves in one repository. *)
Lemma V1_rangeRepositories_spec (todo done : list V1.repositoryConfig)
      (c c' : V1.serverConfig) :
  V1.Repositories c = done ++ todo ->
  V1.rangeRepositories (List.length done) todo c = (c', None) ->
  V1.Repositories c'
  = done ++ map (fun r => if String.eqb (V1.MasterKey c) "" then r
                          else V1.set_ApiKeys (V1.ApiKeys r ++ [V1.MasterKey c]) r) todo
  /\ V1.MasterKey c' = V1.MasterKey c.
Proof.
  revert done c. induction todo as [|r rest IH]; intros done c Hc.
  - simpl. intros [= <-]. rewrite app_nil_r in *. auto.
  - cbn [V1.rangeRepositories].
    destruct (String.eqb (V1.Name r) ""); [discriminate|].
    destruct (String.eqb (V1.Local r) ""); [discriminate|].
    destruct (String.eqb (V1.Remote r) ""); [discriminate|].
    cbv zeta.
    assert (Ht : V1.ApiKeys (if String.eqb (V1.Branch r) "" then V1.set_Branch "main" r else r)
                 = V1.ApiKeys r)
      by (destruct (String.eqb (V1.Branch r) ""); reflexivity).
    rewrite Ht. clear Ht. unfold append.
    destruct (String.eqb (V1.MasterKey c) "") eqn:Ek; cbn [negb].
    + replace (S (List.length done)) with (List.length (done ++ [r]))
        by (rewrite length_app; simpl; lia).
      intros H. apply IH in H; [|rewrite Hc, <- app_assoc; reflexivity].
      rewrite Ek in H. destruct H as [H1 H2].
      rewrite <- app_assoc in H1. simpl in H1. simpl map. auto.
    + set (r' := V1.set_ApiKeys (V1.ApiKeys r ++ [V1.MasterKey c]) r).
      replace (S (List.length done)) with (List.length (done ++ [r']))
        by (rewrite length_app; simpl; lia).
      intros H. apply IH in H.
      * simpl V1.MasterKey in H. rewrite Ek in H. destruct H as [H1 H2].
        rewrite <- app_assoc in H1. simpl in H1. simpl map. auto.
      * simpl V1.Repositories. rewrite Hc, V1_assign_ApiKeys_middle, <- app_assoc.
        reflexivity.
Qed.

Lemma V1_processConfig_spec (c c' : V1.serverConfig) :
  V1.processConfig c = (c', None) ->
  V1.Repositories c'
  = map (fun r => if String.eqb (V1.MasterKey c) "" then r
                  else V1.set_ApiKeys (V1.ApiKeys r ++ [V1.MasterKey c]) r)
        (V1.Repositories c)
  /\ V1.MasterKey c' = V1.MasterKey c.
Proof.
  unfold V1.processConfig. cbv zeta. intros H.
  apply (V1_rangeRepositories_spec _ []) in H; [|reflexivity].
  simpl app in H.
  destruct (String.eqb (V1.Address c) ""); simpl V1.Port in H;
    destruct (String.eqb (V1.Port c) ""); simpl V1.LogDirectory in H;
    destruct (String.eqb (V1.LogDirectory c) ""); exact H.
Qed.

(** X17: in the older revision a master key that is set opens every
    repository: after [processConfig] without error each repository lists
    its own keys followed by the master key, and [validKey] accepts the
    master key for each. *)
Theorem V1_master_key_opens_every_repository (c c' : V1.serverConfig) :
  V1.processConfig c = (c', None) ->
  V1.MasterKey c <> "" ->
  map V1.ApiKeys (V1.Repositories c')
  = map (fun r => V1.ApiKeys r ++ [V1.MasterKey c]) (V1.Repositories c)
  /\ forall r, In r (V1.Repositories c') -> V1Server.validKey r (V1.MasterKey c) = true.
Proof.
  intros H Hk. apply V1_processConfig_spec in H. destruct H as [HR _].
  apply String.eqb_neq in Hk. rewrite Hk in HR. rewrite HR. split.
  - rewrite map_map. reflexivity.
  - intros r Hin. apply in_map_iff in Hin. destruct Hin as (r0 & <- & _).
    unfold V1Server.validKey. simpl. apply slices_Contains_In, in_or_app. right. simpl. auto.
Qed.

(** *** The two revisions side by side *)

Lemma assign_Tokens_upgrade (i : nat) (ts : list string) (rs : list V1.repositoryConfig) :
  assign_Tokens i ts (map upgradeRepository rs)
  = map upgradeRepository (V1.assign_ApiKeys i ts rs).
Proof.
  revert i. induction rs as [|r rest IH]; intros [|j]; simpl; try reflexivity.
  now rewrite IH.
Qed.

Lemma rangeRepositories_upgrade (todo : list V1.repositoryConfig) (i : nat)
      (c1 : V1.serverConfig) (c2 : serverConfig) :
  Repositories c2 = map upgradeRepository (V1.Repositories c1) ->
  GlobalTokens c2 = (if String.eqb (V1.MasterKey c1) "" then [] else [V1.MasterKey c1]) ->
  snd (rangeRepositories i (map upgradeRepository todo) c2)
  = snd (V1.rangeRepositories i todo c1)
  /\ Repositories (fst (rangeRepositories i (map upgradeRepository todo) c2))
     = map upgradeRepository (V1.Repositories (fst (V1.rangeRepositories i todo c1))).
Proof.
  revert i c1 c2. induction todo as [|r rest IH]; intros i c1 c2 HR HG.
  - simpl. auto.
  - cbn [map rangeRepositories V1.rangeRepositories].
    change (Name (upgradeRepository r)) with (V1.Name r).
    change (Local (upgradeRepository r)) with (V1.Local r).
    change (Remote (upgradeRepository r)) with (V1.Remote r).
    destruct (String.eqb (V1.Name r) ""); [simpl; auto|].
    destruct (String.eqb (V1.Local r) ""); [simpl; auto|].
    destruct (String.eqb (V1.Remote r) ""); [simpl; auto|].
    cbv zeta. rewrite rangeGlobalTokens_spec.
    assert (Ht : Tokens (if String.eqb (Branch (upgradeRepository r)) ""
                         then set_Branch "main" (upgradeRepository r)
                         else upgradeRepository r) = V1.ApiKeys r)
      by (destruct (String.eqb (Branch (upgradeRepository r)) ""); reflexivity).
    assert (Hk : V1.ApiKeys (if String.eqb (V1.Branch r) "" then V1.set_Branch "main" r else r)
                 = V1.ApiKeys r)
      by (destruct (String.eqb (V1.Branch r) ""); reflexivity).
    rewrite Ht, Hk, HG. clear Ht Hk.
    destruct (String.eqb (V1.MasterKey c1) "") eqn:Ek; cbn [negb].
    + apply IH; [exact HR | rewrite HG, Ek; reflexivity].
    + apply IH.
      * simpl. rewrite HR. apply assign_Tokens_upgrade.
      * simpl. rewrite HG, Ek. reflexivity.
Qed.

(** X18: the current [processConfig] on an older configuration read as a
    current one (API keys as tokens, a master key as the only global token)
    reports the same error and stores the same repositories as the older
    [processConfig]; the port comes out the same, the address differs only
    where it was empty. *)
Theorem processConfig_agrees_with_older (c : V1.serverConfig) :
  snd (processConfig (upgrade c)) = snd (V1.processConfig c)
  /\ Repositories (fst (processConfig (upgrade c)))
     = map upgradeRepository (V1.Repositories (fst (V1.processConfig c)))
  /\ Port (fst (processConfig (upgrade c))) = V1.Port (fst (V1.processConfig c))
  /\ (V1.Address c <> "" ->
      Address (fst (processConfig (upgrade c))) = V1.Address (fst (V1.processConfig c))).
Proof.
  destruct (processConfig_Address_Port (upgrade c)) as [HA HP].
  destruct (V1_processConfig_Address_Port c) as [HA1 HP1].
  rewrite HA, HP, HA1, HP1.
  assert (H : snd (processConfig (upgrade c)) = snd (V1.processConfig c)
              /\ Repositories (fst (processConfig (upgrade c)))
                 = map upgradeRepository (V1.Repositories (fst (V1.processConfig c)))).
  { unfold processConfig, V1.processConfig. cbv zeta.
    change (Address (upgrade c)) with (V1.Address c).
    destruct (String.eqb (V1.Address c) "");
      cbn [Port set_Address upgrade V1.Port V1.set_Address];
      destruct (String.eqb (V1.Port c) "");
      cbn [V1.LogDirectory V1.set_Port V1.set_Address];
      destruct (String.eqb (V1.LogDirectory c) "");
      apply rangeRepositories_upgrade; reflexivity. }
  destruct H as [H1 H2].
  split; [exact H1|]. split; [exact H2|]. split; [reflexivity|].
  intros Hne. apply String.eqb_neq in Hne. simpl. rewrite Hne. reflexivity.
Qed.

Lemma keyExists_upgrade (c : V1.serverConfig) (k : string) :
  tokenExists (upgrade c) k = V1Server.keyExists c k.
Proof.
  unfold tokenExists, V1Server.keyExists. simpl.
  induction (V1.Repositories c) as [|r rest IH]; [reflexivity|].
  simpl. destruct (slices_Contains (V1.ApiKeys r) k); [reflexivity | exact IH].
Qed.

Lemma getRepository_upgrade (c : V1.serverConfig) (name : string) :
  getRepository (upgrade c) name
  = (option_map upgradeRepository (fst (V1Server.getRepository c name)),
     snd (V1Server.getRepository c name)).
Proof.
  unfold getRepository, V1Server.getRepository. simpl Repositories.
  induction (V1.Repositories c) as [|r rest IH]; [reflexivity|].
  simpl. destruct (String.eqb (V1.Name r) name); [reflexivity | exact IH].
Qed.

(** X19: the older handler and the current one answer alike.  On a
    configuration of the older revision and the same configuration read as
    a current one, a request carrying its credential in [X-GIT-SYNC-KEY]
    and the same request carrying it in [X-GIT-SYNC-TOKEN] get the same
    response, start the same commands and leave the same world. *)
Theorem handler_agrees_with_older
        (World : Type) (cmd_Run : Cmd -> World -> error * World)
        (json_Decode : string -> repositoryRequest * error)
        (c : V1.serverConfig) (r1 r2 : Request) (os : World) :
  Method r2 = Method r1 ->
  Body r2 = Body r1 ->
  requestToken r2 = V1Server.requestKey r1 ->
  w (snd (V1Server.serve cmd_Run json_Decode c r1 (fresh os)))
  = response cmd_Run json_Decode (upgrade c) r2 os
  /\ invocations (snd (V1Server.serve cmd_Run json_Decode c r1 (fresh os)))
     = started cmd_Run json_Decode (upgrade c) r2 os
  /\ world (snd (V1Server.serve cmd_Run json_Decode c r1 (fresh os)))
     = world (snd (serve cmd_Run json_Decode (upgrade c) r2 (fresh os))).
Proof.
  intros Hm Hb Ht.
  unfold response, started, serve, V1Server.serve, handler, V1Server.handler.
  fold (requestToken r2). fold (V1Server.requestKey r1).
  rewrite Hm, Hb, Ht, keyExists_upgrade, ?getRepository_upgrade.
  set (k := V1Server.requestKey r1).
  destruct (String.eqb k ""); [repeat split|].
  destruct (V1Server.keyExists c k); cbn [negb]; [|repeat split].
  destruct (String.eqb (Method r1) "GET"); [repeat split|].
  destruct (String.eqb (Method r1) "POST"); cbn [negb]; [|repeat split].
  destruct (json_Decode (Body r1)) as [q [e|]]; [repeat split|].
  destruct (String.eqb (reqName q) ""); [repeat split|].
  rewrite getRepository_upgrade.
  destruct (V1Server.getRepository c (reqName q)) as [[x|] [e|]]; cbn [fst snd option_map];
    try solve [repeat split].
  change (validToken (upgradeRepository x) k) with (V1Server.validKey x k).
  destruct (V1Server.validKey x k); cbn [negb]; repeat split.
Qed.

(** ** Startup *)

Section StartupFacts.

Variable LookupEnv : string -> option string.
Variable Stat : string -> error.
Variable ReadFile : string -> string * error.
Variable yaml_Unmarshal : string -> serverConfig * error.

(** X22: when the path is found, the file read, the document decoded and
    every repository complete, [main] announces and listens on the
    configured address and port, with [0.0.0.0] for an address left empty
    and [8654] for a port left empty, and serves the processed
    configuration. *)
Theorem main_listens_on_defaulted_address (path data : string) (raw : serverConfig) :
  getConfigPath LookupEnv Stat = (path, None) ->
  ReadFile path = (data, None) ->
  yaml_Unmarshal data = (raw, None) ->
  (forall r, In r (Repositories raw) -> complete r) ->
  let connStr :=
    ((if String.eqb (Address raw) "" then "0.0.0.0" else Address raw)
     ++ ":" ++ (if String.eqb (Port raw) "" then "8654" else Port raw))%string in
  main LookupEnv Stat ReadFile yaml_Unmarshal
  = (("Listening on " ++ connStr ++ LF)%string,
     ListenAndServe connStr (fst (processConfig raw))).
Proof.
  intros Hp Hr Hy Hall. unfold main, loadConfig. rewrite Hp, Hr, Hy.
  pose proof (processConfig_complete raw Hall) as Hok.
  destruct (processConfig_Address_Port raw) as [HA HP].
  destruct (processConfig raw) as [cfg err]. simpl in Hok, HA, HP. subst err.
  rewrite HA, HP. reflexivity.
Qed.

(** X23: [main] gets as far as serving exactly when the configuration path
    is found, the file is read, the document is decoded and every repository
    has a name, a local path and a remote; in every other case it exits with
    status 1. *)
Theorem main_serves_iff_configuration_valid :
  ((exists connStr config,
       snd (main LookupEnv Stat ReadFile yaml_Unmarshal) = ListenAndServe connStr config)
   <-> exists path data raw,
        getConfigPath LookupEnv Stat = (path, None)
        /\ ReadFile path = (data, None)
        /\ yaml_Unmarshal data = (raw, None)
        /\ forall r, In r (Repositories raw) -> complete r)
  /\ forall code, snd (main LookupEnv Stat ReadFile yaml_Unmarshal) = Exit code -> code = 1.
Proof.
  unfold main, loadConfig.
  destruct (getConfigPath LookupEnv Stat) as [path [e|]].
  { split; [split|]; simpl.
    - intros (a & b & H). discriminate.
    - intros (p & d & raw & H & _). discriminate.
    - intros code [= <-]. reflexivity. }
  destruct (ReadFile path) as [data [e|]] eqn:Hr.
  { split; [split|]; simpl.
    - intros (a & b & H). discriminate.
    - intros (p & d & raw & [= <-] & H & _). rewrite Hr in H. discriminate.
    - intros code [= <-]. reflexivity. }
  destruct (yaml_Unmarshal data) as [raw [e|]] eqn:Hy.
  { split; [split|]; simpl.
    - intros (a & b & H). discriminate.
    - intros (p & d & raw' & [= <-] & H & H' & _).
      rewrite Hr in H. injection H as <-. rewrite Hy in H'. discriminate.
    - intros code [= <-]. reflexivity. }
  destruct (processConfig raw) as [cfg [e|]] eqn:Hpc.
  - split; [split|]; simpl.
    + intros (a & b & H). discriminate.
    + intros (p & d & raw' & [= <-] & H & H' & Hall).
      rewrite Hr in H. injection H as <-. rewrite Hy in H'. injection H' as <-.
      pose proof (processConfig_complete raw Hall) as Hok.
      rewrite Hpc in Hok. discriminate.
    + intros code [= <-]. reflexivity.
  - split; [split|]; simpl.
    + intros _. exists path, data, raw. repeat split; try assumption.
      all: apply processConfig_spec in Hpc; destruct Hpc as (_ & _ & Hall);
        destruct (Hall r H) as (? & ? & ?); assumption.
    + intros _. eauto.
    + discriminate.
Qed.

End StartupFacts.

(** ** The further properties at concrete deployments *)

(** X2 with an incomplete repository between the README's two. *)
Lemma processConfig_first_incomplete_witness :
  snd (processConfig Doubles.oneIncomplete) = Some "repository config missing local value"
  /\ Repositories (fst (processConfig Doubles.oneIncomplete))
     = [set_Tokens ["batman"; "zelda"] Examples.moduleLogger; Doubles.noLocal;
        Examples.neovim].
Proof.
  apply (processConfig_first_incomplete Doubles.oneIncomplete
           [Examples.moduleLogger] [Examples.neovim] Doubles.noLocal).
  - reflexivity.
  - intros r [<-|[]]. repeat split; discriminate.
  - intros (_ & H & _). apply H. reflexivity.
Defined.

(** X3 with two global tokens. *)
Lemma processConfig_stores_last_global_witness :
  map Tokens (Repositories (fst (processConfig Examples.twoGlobals)))
  = [["batman"; "link"]; ["spiderman"; "link"]].
Proof.
  apply (processConfig_stores_last_global Examples.twoGlobals
           (fst (processConfig Examples.twoGlobals))).
  reflexivity.
Defined.

(** X5 at the README's deployment. *)
Lemma getRepository_after_processConfig_witness :
  fst (getRepository readmeProcessed "neovim") = Some neovimProcessed
  /\ snd (getRepository readmeProcessed "neovim") = None.
Proof.
  apply (getRepository_after_processConfig Examples.readme readmeProcessed "neovim").
  reflexivity.
Defined.

(** X6 with two global tokens: the last one passes, as a global token. *)
Lemma tokenExists_after_processConfig_witness :
  tokenExists (fst (processConfig Examples.twoGlobals)) "link" = true.
Proof.
  apply (proj2 (tokenExists_after_processConfig Examples.twoGlobals
                  (fst (processConfig Examples.twoGlobals)) "link" eq_refl)).
  right. split; [discriminate|]. exists "zelda", ["link"]. split; reflexivity.
Defined.

(** X7 at the README's deployment. *)
Lemma processConfig_again_witness :
  exists c'',
    processConfig readmeProcessed = (c'', None)
    /\ map Tokens (Repositories c'')
       = [["batman"; "zelda"; "zelda"]; ["spiderman"; "zelda"; "zelda"]]
    /\ forall t, tokenExists c'' t = tokenExists readmeProcessed t.
Proof.
  apply (processConfig_again Examples.readme readmeProcessed). reflexivity.
Defined.

(** X8 with two repositories named [docs]. *)
Lemma getRepository_first_match_witness :
  getRepository Doubles.duplicated "docs" = (Some Doubles.noBranch, None).
Proof.
  apply (getRepository_first_match Doubles.duplicated [] [Doubles.shadowing] Doubles.noBranch).
  - reflexivity.
  - intros x [].
Defined.

(** X12 at the README's deployment. *)
Lemma commands_need_authorized_post_witness :
  exists q repo k,
    requestToken (Examples.post "batman" "module-logger") <> ""
    /\ Method (Examples.post "batman" "module-logger") = "POST"
    /\ Examples.decodeName (Body (Examples.post "batman" "module-logger")) = (q, None)
    /\ reqName q <> ""
    /\ getRepository readmeProcessed (reqName q) = (Some repo, None)
    /\ validToken repo (requestToken (Examples.post "batman" "module-logger")) = true
    /\ 1 <= k <= 3
    /\ started Examples.runsClean Examples.decodeName readmeProcessed
         (Examples.post "batman" "module-logger") tt
       = firstn k [fetchCmd repo; resetCmd repo; cleanCmd repo].
Proof.
  apply (commands_need_authorized_post unit Examples.runsClean Examples.decodeName
           readmeProcessed (Examples.post "batman" "module-logger") tt).
  vm_compute. discriminate.
Defined.

(** X15 with the README's first repository and a mirror of it. *)
Lemma syncRepository_path_and_branch_only_witness :
  syncRepository (Examples.failsAt "reset") Examples.moduleLogger (fresh tt)
  = syncRepository (Examples.failsAt "reset") Doubles.mirror (fresh tt).
Proof.
  apply (syncRepository_path_and_branch_only unit (Examples.failsAt "reset")
           Examples.moduleLogger Doubles.mirror (fresh tt)); reflexivity.
Defined.

(** X16 with a repository configured without a branch. *)
Lemma unset_branch_not_defaulted_witness :
  exists r',
    getRepository (fst (processConfig Doubles.branchless)) "docs" = (Some r', None)
    /\ Branch r' = ""
    /\ fetchCmd r' = mkCmd "git" ["fetch"; "origin"; ""] "/opt/docs"
    /\ resetCmd r' = mkCmd "git" ["reset"; "--hard"; "origin/"] "/opt/docs".
Proof.
  apply (unset_branch_not_defaulted Doubles.branchless
           (fst (processConfig Doubles.branchless)) "docs" Doubles.noBranch);
    reflexivity.
Defined.

(** X17 at the README's deployment in the older format. *)
Lemma V1_master_key_opens_every_repository_witness :
  map V1.ApiKeys (V1.Repositories (fst (V1.processConfig Doubles.readmeV1)))
  = [["batman"; "zelda"]; ["spiderman"; "zelda"]]
  /\ forall r, In r (V1.Repositories (fst (V1.processConfig Doubles.readmeV1))) ->
               V1Server.validKey r "zelda" = true.
Proof.
  apply (V1_master_key_opens_every_repository Doubles.readmeV1
           (fst (V1.processConfig Doubles.readmeV1))).
  - reflexivity.
  - discriminate.
Defined.

(** X18 at the README's deployment in the older format, bound to an
    address. *)
Lemma processConfig_agrees_with_older_witness :
  Address (fst (processConfig (upgrade Doubles.readmeV1Bound)))
  = V1.Address (fst (V1.processConfig Doubles.readmeV1Bound)).
Proof.
  apply (proj2 (proj2 (proj2 (processConfig_agrees_with_older Doubles.readmeV1Bound)))).
  discriminate.
Defined.

(** X19 at the README's deployment, with a clean that fails. *)
Lemma handler_agrees_with_older_witness :
  w (snd (V1Server.serve (Examples.failsAt "clean") Examples.decodeName
            (fst (V1.processConfig Doubles.readmeV1))
            (mkRequest "POST" (Doubles.keyHeader "batman") (Examples.naming "module-logger"))
            (fresh tt)))
  = response (Examples.failsAt "clean") Examples.decodeName
      (upgrade (fst (V1.processConfig Doubles.readmeV1)))
      (Examples.post "batman" "module-logger") tt
  /\ invocations (snd (V1Server.serve (Examples.failsAt "clean") Examples.decodeName
                         (fst (V1.processConfig Doubles.readmeV1))
                         (mkRequest "POST" (Doubles.keyHeader "batman")
                            (Examples.naming "module-logger"))
                         (fresh tt)))
     = started (Examples.failsAt "clean") Examples.decodeName
         (upgrade (fst (V1.processConfig Doubles.readmeV1)))
         (Examples.post "batman" "module-logger") tt
  /\ world (snd (V1Server.serve (Examples.failsAt "clean") Examples.decodeName
                   (fst (V1.processConfig Doubles.readmeV1))
                   (mkRequest "POST" (Doubles.keyHeader "batman")
                      (Examples.naming "module-logger"))
                   (fresh tt)))
     = world (snd (serve (Examples.failsAt "clean") Examples.decodeName
                     (upgrade (fst (V1.processConfig Doubles.readmeV1)))
                     (Examples.post "batman" "module-logger") (fresh tt))).
Proof.
  apply (handler_agrees_with_older unit (Examples.failsAt "clean") Examples.decodeName
           (fst (V1.processConfig Doubles.readmeV1))
           (mkRequest "POST" (Doubles.keyHeader "batman") (Examples.naming "module-logger"))
           (Examples.post "batman" "module-logger") tt); reflexivity.
Defined.

(** X22 with a configuration that sets neither address nor port. *)
Lemma main_listens_on_defaulted_address_witness :
  main (Doubles.env None) (Doubles.stat Doubles.documentedPathOnly)
       (Doubles.readFile Doubles.documentedPathOnly)
       (Doubles.unmarshal Doubles.knownDocuments)
  = (("Listening on 0.0.0.0:8654" ++ LF)%string,
     ListenAndServe "0.0.0.0:8654" (fst (processConfig Examples.twoGlobals))).
Proof.
  apply (main_listens_on_defaulted_address (Doubles.env None)
           (Doubles.stat Doubles.documentedPathOnly)
           (Doubles.readFile Doubles.documentedPathOnly)
           (Doubles.unmarshal Doubles.knownDocuments)
           "/etc/git-sync/config.yaml" "two-globals" Examples.twoGlobals);
    try reflexivity.
  intros r [<-|[<-|[]]]; repeat split; discriminate.
Defined.

(** ** A HEAD request at the README's deployment *)

(** The handler answers a HEAD like any method that is neither GET nor POST:
    status 405 and its message written; the response goes out without the
    message. *)
Lemma head_request_sent_without_body :
  response Examples.runsClean Examples.decodeName readmeProcessed
    (mkRequest "HEAD" (Examples.tokenHeader "batman") "") tt
  = mkResponseWriter true StatusMethodNotAllowed ("GET or POST only" ++ LF)
  /\ sentBody (mkRequest "HEAD" (Examples.tokenHeader "batman") "")
       (response Examples.runsClean Examples.decodeName readmeProcessed
          (mkRequest "HEAD" (Examples.tokenHeader "batman") "") tt) = "".
Proof. split; reflexivity. Qed.
